(** * SSELFIE: styleguide routes and relational schema

    A shallow embedding of [server/routes/styleguide-routes.ts] (the four
    Express handlers registered by [registerStyleguideRoutes] and the
    module-private [generateSandraStyleguideResponse]) and of the two
    Drizzle table declarations [userModels] and [domains] of the shared
    schema, with the properties the specification states about them. *)

From Stdlib Require Import Floats Ascii String.
From stdpp Require Import gmap strings list fin_maps.

Local Open Scope string_scope.

(** ** JavaScript values

    Everything that crosses the route boundary is typed [any] in the source
    (request bodies, claims, whatever the storage layer resolves to), so it
    is modelled as a JavaScript value.  Numbers are IEEE 754 doubles; the
    fields of an object are kept in insertion order, under distinct keys.
    [JFun] is a built-in function object, named by the method it is: reading
    an inherited method off a primitive yields one.  A request body is parsed
    JSON, which has no functions, so none occurs inside a body. *)

#[warnings="-register-all"]
Inductive JsValue : Type :=
  | JUndefined
  | JNull
  | JBool (b : bool)
  | JNum (n : float)
  | JStr (s : string)
  | JArr (items : list JsValue)
  | JObj (fields : list (string * JsValue))
  | JFun (name : string).

(** ToBoolean: [undefined], [null], [false], [+0], [-0], [NaN] and the empty
    string are falsy, every other value (objects, arrays and functions
    included) is truthy. *)
Definition truthy (v : JsValue) : bool :=
  match v with
  | JUndefined | JNull => false
  | JBool b => b
  | JNum n => negb (PrimFloat.eqb n 0%float) && PrimFloat.eqb n n
  | JStr s => negb (String.eqb s "")
  | JArr _ | JObj _ | JFun _ => true
  end.

(** [a || b] on values: the left operand when it is truthy. *)
Definition jsOr (a b : JsValue) : JsValue := if truthy a then a else b.

Definition nullish (v : JsValue) : bool :=
  match v with
  | JUndefined | JNull => true
  | _ => false
  end.

Fixpoint lookupField (k : string) (fields : list (string * JsValue)) : JsValue :=
  match fields with
  | [] => JUndefined
  | (k', v) :: rest => if String.eqb k k' then v else lookupField k rest
  end.

(** [v?.k] for the property names read in this file: [claims], [sub],
    [message], [currentStyleguide], [personalMission], [brandVoice] and
    [targetAudience].  An object answers with its own property.  Of the
    seven names one is defined on a built-in prototype: [sub] is the method
    [String.prototype.sub], so every string, the empty one too, answers
    [sub] with that function.  No other name is inherited by a string, a
    number, a boolean, an array or a function, and [undefined] and [null]
    short-circuit to [undefined]. *)
Definition optChain (v : JsValue) (k : string) : JsValue :=
  match v with
  | JObj fields => lookupField k fields
  | JStr _ => if String.eqb k "sub" then JFun "String.prototype.sub" else JUndefined
  | _ => JUndefined
  end.

(** ** Strings *)

(** A string is the sequence of its bytes (UTF-8).  On Basic Latin text
    this is [String.prototype.toLowerCase]: [A]..[Z] become [a]..[z] and
    every other Basic Latin character stays.  For the other characters the
    built-in follows the Unicode case tables, which are not carried here:
    their bytes pass through unchanged, so the lower-cased text itself is
    exact for Basic Latin input only.  Whether a keyword occurs in the
    lower-cased text, which is all the classifier asks, is the same as with
    the built-in on every string: the keywords are Basic Latin and no other
    character lower-cases into one of their letters. *)
Definition lowerChar (c : ascii) : ascii :=
  let n := N_of_ascii c in
  if (65 <=? n)%N && (n <=? 90)%N then ascii_of_N (n + 32) else c.

Fixpoint toLowerCase (s : string) : string :=
  match s with
  | EmptyString => EmptyString
  | String c rest => String (lowerChar c) (toLowerCase rest)
  end.

Fixpoint startsWith (s pat : string) : bool :=
  match pat, s with
  | EmptyString, _ => true
  | String _ _, EmptyString => false
  | String p pat', String c s' => Ascii.eqb c p && startsWith s' pat'
  end.

(** [String.prototype.includes]: some position of [s] starts an occurrence
    of [pat]. *)
Fixpoint includes (s pat : string) : bool :=
  startsWith s pat ||
  match s with
  | EmptyString => false
  | String _ s' => includes s' pat
  end.

(** The specification's reading of "contains the literal substring". *)
Definition Substring (pat s : string) : Prop :=
  ∃ pre post : string, s = pre +:+ pat +:+ post.

(** The double-quote character, for the two template literals that embed
    quoted text. *)
Definition dquote : string := String (ascii_of_nat 34) EmptyString.

(** ** Effects

    A handler may throw, call the storage layer, write to the console and
    read the system clock.  [M] threads the world those effects act on and
    carries a thrown exception in its result. *)

Inductive exn : Type :=
  | TypeError                       (* raised by the language itself *)
  | Rejected (reason : JsValue).    (* a rejected promise of a collaborator *)

Inductive Result (A : Type) : Type :=
  | Ok (a : A)
  | Throw (e : exn).
Arguments Ok {A} a.
Arguments Throw {A} e.

(** One entry per method invoked on the imported [storage] object. *)
Inductive StorageCall : Type :=
  | CallCreateOrUpdateStyleguide (userId data : JsValue)
  | CallGetOnboardingData (userId : JsValue).

(** The storage boundary of [../storage]: the two methods the routes use.
    Either may resolve or reject, and either may change what is stored. *)
Class Storage (Store : Type) : Type := {
  createOrUpdateStyleguide : JsValue → JsValue → Store → Result JsValue * Store;
  getOnboardingData : JsValue → Store → Result JsValue * Store
}.

Record World (Store : Type) : Type := mkWorld {
  store : Store;                    (* persisted state behind [storage] *)
  calls : list StorageCall;         (* storage methods invoked, latest first *)
  console : list (string * exn);    (* [console.error] lines, latest first *)
  clock : nat → string;             (* [new Date().toISOString()] at the n-th reading *)
  reads : nat                       (* clock readings taken so far *)
}.
Arguments mkWorld {Store}.
Arguments store {Store}.
Arguments calls {Store}.
Arguments console {Store}.
Arguments clock {Store}.
Arguments reads {Store}.

Definition M (Store A : Type) : Type := World Store → Result A * World Store.

Section Monad.
Context {Store : Type}.

Definition ret {A} (a : A) : M Store A := λ w, (Ok a, w).

Definition bind {A B} (m : M Store A) (k : A → M Store B) : M Store B :=
  λ w, match m w with
       | (Ok a, w') => k a w'
       | (Throw e, w') => (Throw e, w')
       end.

Definition throw {A} (e : exn) : M Store A := λ w, (Throw e, w).

(** [try { body } catch (error) { handler }] *)
Definition tryCatch {A} (body : M Store A) (handler : exn → M Store A) : M Store A :=
  λ w, match body w with
       | (Ok a, w') => (Ok a, w')
       | (Throw e, w') => handler e w'
       end.

(** [new Date().toISOString()] *)
Definition newDateISOString : M Store string :=
  λ w, (Ok (clock w (reads w)),
        mkWorld (store w) (calls w) (console w) (clock w) (S (reads w))).

(** [console.error(label, error)] *)
Definition consoleError (label : string) (error : exn) : M Store unit :=
  λ w, (Ok tt,
        mkWorld (store w) (calls w) ((label, error) :: console w) (clock w) (reads w)).

Context `{!Storage Store}.

(** [await storage.createOrUpdateStyleguide(userId, data)] *)
Definition awaitCreateOrUpdateStyleguide (userId data : JsValue) : M Store JsValue :=
  λ w, let '(r, s) := createOrUpdateStyleguide userId data (store w) in
       (r, mkWorld s (CallCreateOrUpdateStyleguide userId data :: calls w)
                   (console w) (clock w) (reads w)).

(** [await storage.getOnboardingData(userId)] *)
Definition awaitGetOnboardingData (userId : JsValue) : M Store JsValue :=
  λ w, let '(r, s) := getOnboardingData userId (store w) in
       (r, mkWorld s (CallGetOnboardingData userId :: calls w)
                   (console w) (clock w) (reads w)).
End Monad.

Notation "x <- m ;; k" := (bind m (λ x, k))
  (at level 20, m at level 99, k at level 200, only parsing).

(** ** Data of the chat responder *)

(** The shape of a styleguide template, as far as this file reads it.  The
    template module itself ([shared/templates/template-minimalistic]) is
    imported, so [colors] and [typography] expose the one property that is
    interpolated and keep the rest as it comes. *)
Module Colors.
Record t : Type := mk { primary : string; others : list (string * JsValue) }.
End Colors.

Module Typography.
Record t : Type := mk { headline : string; others : list (string * JsValue) }.
End Typography.

Module Template.
Record t : Type := mk {
  id : string;
  name : string;
  description : string;
  colors : Colors.t;
  typography : Typography.t;
  voiceProfile : JsValue;
  visualElements : JsValue
}.
End Template.

Module StyleguideData.
Record t : Type := mk {
  templateId : string;
  templateName : string;
  colors : Colors.t;
  typography : Typography.t;
  voiceProfile : JsValue;
  visualElements : JsValue;
  personalMission : JsValue;
  brandVoice : JsValue;
  targetAudience : JsValue
}.
End StyleguideData.

(** The object returned by [generateSandraStyleguideResponse]; a property a
    branch does not set is [None]. *)
Module ChatResponse.
Record t : Type := mk {
  type : string;
  message : string;
  styleguideData : option StyleguideData.t;
  templateApplied : option string;
  suggestions : option (list string)
}.
End ChatResponse.

(** The [context] argument of [generateSandraStyleguideResponse]. *)
Module Context.
Record t : Type := mk {
  message : JsValue;
  userId : JsValue;
  onboardingData : JsValue;
  currentStyleguide : JsValue;
  availableTemplates : list Template.t
}.
End Context.

Section Responder.
Context {Store : Type}.

(** [message.toLowerCase()]: only a string has the method; on any other
    value the call throws. *)
Definition callToLowerCase (message : JsValue) : M Store string :=
  match message with
  | JStr s => ret (toLowerCase s)
  | _ => throw TypeError
  end.

(** [message.toLowerCase().includes('create') ||
     message.toLowerCase().includes('new') ||
     message.toLowerCase().includes('generate')] *)
Definition isCreationRequest (message : JsValue) : M Store bool :=
  a <- callToLowerCase message ;;
  if includes a "create" then ret true else
  b <- callToLowerCase message ;;
  if includes b "new" then ret true else
  c <- callToLowerCase message ;;
  ret (includes c "generate").

Definition createdMessage (template : Template.t) : string :=
  "I've created a beautiful " +:+ dquote +:+ Template.name template +:+ dquote
  +:+ " styleguide for you! This template features "
  +:+ toLowerCase (Template.description template)
  +:+ ". It uses " +:+ Typography.headline (Template.typography template)
  +:+ " typography and a sophisticated color palette with "
  +:+ Colors.primary (Template.colors template)
  +:+ " as the primary color. Perfect for your brand personality!".

Definition conversationMessage : string :=
  "I'd love to help you create your personalized styleguide! I can create a beautiful brand bible using your AI images, personal story, and preferences. Just say "
  +:+ dquote +:+ "create my styleguide" +:+ dquote +:+ " and I'll get started!".

Definition generateSandraStyleguideResponse (context : Context.t)
  : M Store ChatResponse.t :=
  let message := Context.message context in
  let onboardingData := Context.onboardingData context in
  let availableTemplates := Context.availableTemplates context in
  creation <- isCreationRequest message ;;
  if creation then
    match availableTemplates !! 0%nat with
    | None => throw TypeError          (* [template.name] of [undefined] *)
    | Some template =>
        ret {|
          ChatResponse.type := "styleguide_created";
          ChatResponse.message := createdMessage template;
          ChatResponse.styleguideData := Some {|
            StyleguideData.templateId := Template.id template;
            StyleguideData.templateName := Template.name template;
            StyleguideData.colors := Template.colors template;
            StyleguideData.typography := Template.typography template;
            StyleguideData.voiceProfile := Template.voiceProfile template;
            StyleguideData.visualElements := Template.visualElements template;
            StyleguideData.personalMission :=
              jsOr (optChain onboardingData "personalMission")
                   (JStr "Your unique mission and vision");
            StyleguideData.brandVoice :=
              jsOr (optChain onboardingData "brandVoice")
                   (JStr "Professional and authentic");
            StyleguideData.targetAudience :=
              jsOr (optChain onboardingData "targetAudience")
                   (JStr "Your ideal clients")
          |};
          ChatResponse.templateApplied := Some (Template.id template);
          ChatResponse.suggestions := None
        |}
    end
  else
    ret {|
      ChatResponse.type := "conversation";
      ChatResponse.message := conversationMessage;
      ChatResponse.styleguideData := None;
      ChatResponse.templateApplied := None;
      ChatResponse.suggestions :=
        Some ["Create my styleguide"; "Show me templates";
              "What information do you need?"]
    |}.
End Responder.

(** ** Data of the routes *)

(** The document served for the demo user. *)
Module ColorPalette.
Record t : Type := mk {
  primary : string; secondary : string; accent : string;
  text : string; background : string; border : string
}.
End ColorPalette.

Module Fonts.
Record t : Type := mk {
  headline : string; subheading : string; body : string; accent : string
}.
End Fonts.

Module ImageSelections.
Record t : Type := mk {
  heroImage : string;
  portraitImages : list string;
  lifestyleImages : list string
}.
End ImageSelections.

Module BrandPersonality.
Record t : Type := mk {
  traits : list string; keywords : list string; vibe : string
}.
End BrandPersonality.

Module BusinessApplications.
Record t : Type := mk {
  primaryService : string; priceRange : string; clientExperience : string
}.
End BusinessApplications.

Module Styleguide.
Record t : Type := mk {
  id : Z;
  userId : string;
  templateId : string;
  title : string;
  subtitle : string;
  personalMission : string;
  brandVoice : string;
  targetAudience : string;
  visualStyle : string;
  colorPalette : ColorPalette.t;
  typography : Fonts.t;
  imageSelections : ImageSelections.t;
  brandPersonality : BrandPersonality.t;
  businessApplications : BusinessApplications.t;
  isActive : bool;
  createdAt : string;
  updatedAt : string
}.
End Styleguide.

(** What a handler reads of [req]. *)
Module Request.
Record t : Type := mk {
  userId : string;      (* [req.params.userId], the [:userId] path segment *)
  user : JsValue;       (* [req.user], left by the session middleware *)
  body : JsValue        (* [req.body] *)
}.
End Request.

(** The JSON document a handler sends. *)
Inductive Body : Type :=
  | MessageBody (message : string)              (* [{ message: ... }] *)
  | StyleguideBody (styleguide : Styleguide.t)
  | StoredBody (styleguide : JsValue)
  | TemplatesBody (templates : list Template.t)
  | ChatBody (response : ChatResponse.t).

Module Response.
Record t : Type := mk { status : Z; body : Body }.
End Response.

(** [res.json(body)] and [res.status(code).json(body)] *)
Definition json (body : Body) : Response.t := Response.mk 200 body.
Definition statusJson (code : Z) (body : Body) : Response.t := Response.mk code body.

Definition demoStyleguide (createdAt updatedAt : string) : Styleguide.t := {|
  Styleguide.id := 1;
  Styleguide.userId := "demo123";
  Styleguide.templateId := "minimalistic";
  Styleguide.title := "Sarah Johnson";
  Styleguide.subtitle := "Strategic Brand Consultant";
  Styleguide.personalMission := "Empowering women entrepreneurs to build authentic, profitable brands that reflect their true essence and create meaningful impact in the world.";
  Styleguide.brandVoice := "Warm, professional, and inspiring with an authentic, conversational tone that makes complex business concepts feel accessible and achievable.";
  Styleguide.targetAudience := "Ambitious women entrepreneurs ready to elevate their brand and scale their business with authentic, strategic positioning.";
  Styleguide.visualStyle := "Refined minimal with editorial sophistication";
  Styleguide.colorPalette := {|
    ColorPalette.primary := "#1a1a1a";
    ColorPalette.secondary := "#666666";
    ColorPalette.accent := "#f8f8f8";
    ColorPalette.text := "#1a1a1a";
    ColorPalette.background := "#fefefe";
    ColorPalette.border := "#f0f0f0"
  |};
  Styleguide.typography := {|
    Fonts.headline := "Helvetica Neue, sans-serif";
    Fonts.subheading := "Helvetica Neue, sans-serif";
    Fonts.body := "Helvetica Neue, sans-serif";
    Fonts.accent := "Helvetica Neue, sans-serif"
  |};
  Styleguide.imageSelections := {|
    ImageSelections.heroImage := "https://i.postimg.cc/VLCFmXVr/1.png";
    ImageSelections.portraitImages := [
      "https://i.postimg.cc/VLCFmXVr/1.png";
      "https://i.postimg.cc/WpDyqFyj/10.png";
      "https://i.postimg.cc/SRz1B3Hk/11.png"
    ];
    ImageSelections.lifestyleImages := [
      "https://i.postimg.cc/VLCFmXVr/1.png";
      "https://i.postimg.cc/WpDyqFyj/10.png";
      "https://i.postimg.cc/SRz1B3Hk/11.png";
      "https://i.postimg.cc/VLCFmXVr/1.png"
    ]
  |};
  Styleguide.brandPersonality := {|
    BrandPersonality.traits :=
      ["Authentic"; "Professional"; "Inspiring"; "Strategic"; "Warm"; "Confident"];
    BrandPersonality.keywords := ["Authentic"; "Strategic"; "Inspiring"];
    BrandPersonality.vibe := "Refined Minimal Professional"
  |};
  Styleguide.businessApplications := {|
    BusinessApplications.primaryService := "Strategic Brand Consulting";
    BusinessApplications.priceRange := "Premium Investment";
    BusinessApplications.clientExperience := "Transformational & Personal"
  |};
  Styleguide.isActive := true;
  Styleguide.createdAt := createdAt;
  Styleguide.updatedAt := updatedAt
|}.

(** ** The routes of [registerStyleguideRoutes]

    Each definition is the callback registered for its route.  The
    [isAuthenticated] middleware in front of the two [POST] routes is another
    module's code; the callbacks run once it has let the request through. *)

Section Routes.
Context {Store : Type} `{!Storage Store}.

(** The imported template constant. *)
Variable minimalisticTemplate : Template.t.

(** [const { k } = v]: destructuring [undefined] or [null] throws. *)
Definition destructure (v : JsValue) (k : string) : M Store JsValue :=
  if nullish v then throw TypeError else ret (optChain v k).

(** [req.user?.claims?.sub] *)
Definition claimsSub (req : Request.t) : JsValue :=
  optChain (optChain (Request.user req) "claims") "sub".

(** [app.get("/api/styleguide/:userId", ...)] *)
Definition getStyleguide (req : Request.t) : M Store Response.t :=
  tryCatch
    (let userId := Request.userId req in
     if String.eqb userId "demo123" then
       createdAt <- newDateISOString ;;
       updatedAt <- newDateISOString ;;
       ret (json (StyleguideBody (demoStyleguide createdAt updatedAt)))
     else
       ret (statusJson 404 (MessageBody "Styleguide not found")))
    (λ error,
       _ <- consoleError "Error fetching styleguide:" error ;;
       ret (statusJson 500 (MessageBody "Failed to fetch styleguide"))).

(** [app.post("/api/styleguide", isAuthenticated, ...)] *)
Definition postStyleguide (req : Request.t) : M Store Response.t :=
  tryCatch
    (let userId := claimsSub req in
     if negb (truthy userId) then
       ret (statusJson 401 (MessageBody "User not authenticated"))
     else
       let styleguideData := Request.body req in
       styleguide <- awaitCreateOrUpdateStyleguide userId styleguideData ;;
       ret (json (StoredBody styleguide)))
    (λ error,
       _ <- consoleError "Error creating styleguide:" error ;;
       ret (statusJson 500 (MessageBody "Failed to create styleguide"))).

(** [app.get("/api/styleguide-templates", ...)] *)
Definition getStyleguideTemplates (req : Request.t) : M Store Response.t :=
  tryCatch
    (let templates := [minimalisticTemplate] in
     ret (json (TemplatesBody templates)))
    (λ error,
       _ <- consoleError "Error fetching templates:" error ;;
       ret (statusJson 500 (MessageBody "Failed to fetch templates"))).

(** [app.post("/api/styleguide-chat", isAuthenticated, ...)] *)
Definition postStyleguideChat (req : Request.t) : M Store Response.t :=
  tryCatch
    (let userId := claimsSub req in
     if negb (truthy userId) then
       ret (statusJson 401 (MessageBody "User not authenticated"))
     else
       message <- destructure (Request.body req) "message" ;;
       currentStyleguide <- destructure (Request.body req) "currentStyleguide" ;;
       onboardingData <- awaitGetOnboardingData userId ;;
       response <- generateSandraStyleguideResponse {|
         Context.message := message;
         Context.userId := userId;
         Context.onboardingData := onboardingData;
         Context.currentStyleguide := currentStyleguide;
         Context.availableTemplates := [minimalisticTemplate]
       |} ;;
       ret (json (ChatBody response)))
    (λ error,
       _ <- consoleError "Error in SANDRA styleguide chat:" error ;;
       ret (statusJson 500 (MessageBody "Failed to process styleguide request"))).

(** One [app.get] or [app.post] registration. *)
Record Route : Type := mkRoute {
  method : string;
  path : string;
  handler : Request.t → M Store Response.t
}.

Definition registerStyleguideRoutes : list Route := [
  mkRoute "GET" "/api/styleguide/:userId" getStyleguide;
  mkRoute "POST" "/api/styleguide" postStyleguide;
  mkRoute "GET" "/api/styleguide-templates" getStyleguideTemplates;
  mkRoute "POST" "/api/styleguide-chat" postStyleguideChat
].
End Routes.
Arguments Route Store : clear implicits.

(** ** The relational schema

    The table declarations are values built with the column builders of
    [drizzle-orm/pg-core]; [PgCore] embeds the builders used by the three
    tables below, and the meaning PostgreSQL gives to the constraints they
    declare. *)

Inductive SqlValue : Type :=
  | SqlText (s : string)
  | SqlInt (z : Z)
  | SqlBool (b : bool)
  | SqlTimestamp (millis : Z)
  | SqlJson (document : string).

#[global] Instance SqlValue_eq_dec : EqDecision SqlValue.
Proof. solve_decision. Defined.

Module PgCore.
Inductive ColumnType : Type :=
  | Serial | Varchar | Text | Timestamp | Jsonb | Boolean | Integer.

Inductive ColumnDefault : Type :=
  | DefaultValue (v : SqlValue)
  | DefaultNow.

Record Column : Type := mkColumn {
  columnName : string;
  dataType : ColumnType;
  isPrimaryKey : bool;
  isNotNull : bool;
  isUnique : bool;
  hasDefault : option ColumnDefault;
  foreignKey : option (string * string)    (* table and column referenced *)
}.

Definition column (ty : ColumnType) (name : string) : Column :=
  mkColumn name ty false false false None None.

Definition serial := column Serial.
Definition varchar := column Varchar.
Definition text := column Text.
Definition timestamp := column Timestamp.
Definition jsonb := column Jsonb.
Definition boolean := column Boolean.
Definition integer := column Integer.

Definition primaryKey (c : Column) : Column :=
  mkColumn (columnName c) (dataType c) true (isNotNull c) (isUnique c)
           (hasDefault c) (foreignKey c).
Definition notNull (c : Column) : Column :=
  mkColumn (columnName c) (dataType c) (isPrimaryKey c) true (isUnique c)
           (hasDefault c) (foreignKey c).
Definition unique (c : Column) : Column :=
  mkColumn (columnName c) (dataType c) (isPrimaryKey c) (isNotNull c) true
           (hasDefault c) (foreignKey c).
Definition default (v : SqlValue) (c : Column) : Column :=
  mkColumn (columnName c) (dataType c) (isPrimaryKey c) (isNotNull c) (isUnique c)
           (Some (DefaultValue v)) (foreignKey c).
Definition defaultNow (c : Column) : Column :=
  mkColumn (columnName c) (dataType c) (isPrimaryKey c) (isNotNull c) (isUnique c)
           (Some DefaultNow) (foreignKey c).

(** A table: its name and its columns under their property keys. *)
Record Table : Type := pgTable {
  tableName : string;
  columns : list (string * Column)
}.

Definition references (target : Table) (key : string) (c : Column) : Column :=
  mkColumn (columnName c) (dataType c) (isPrimaryKey c) (isNotNull c) (isUnique c)
           (hasDefault c)
           (match List.find (λ kc, String.eqb (fst kc) key) (columns target) with
            | Some kc => Some (tableName target, columnName (snd kc))
            | None => None
            end).

(** A stored row gives a value to the columns that are not [NULL]. *)
Abbreviation Row := (gmap string SqlValue).

Definition cell (c : Column) (r : Row) : option SqlValue := r !! columnName c.

(** [NOT NULL], also implied by [PRIMARY KEY] and by the [serial] type. *)
Definition rejectsNull (c : Column) : bool :=
  isNotNull c || isPrimaryKey c ||
  match dataType c with Serial => true | _ => false end.

(** [UNIQUE], also implied by [PRIMARY KEY]: no two rows hold the same
    value; [NULL] is no value and may repeat. *)
Definition rejectsDuplicates (c : Column) : bool := isUnique c || isPrimaryKey c.

Definition columnHolds (rows : list Row) (c : Column) : bool :=
  implb (rejectsNull c) (forallb (λ r, bool_decide (is_Some (cell c r))) rows)
  && implb (rejectsDuplicates c) (bool_decide (NoDup (omap (cell c) rows))).

(** The rows of a table are a state its declaration allows. *)
Definition tableHolds (t : Table) (rows : list Row) : bool :=
  forallb (λ kc, columnHolds rows (snd kc)) (columns t).
End PgCore.

Notation "c |> f" := (f c) (at level 45, left associativity, only parsing).

Module Schema.
Import PgCore.

Definition users : Table := pgTable "users" [
  ("id", varchar "id" |> primaryKey |> notNull);
  ("email", varchar "email" |> unique);
  ("firstName", varchar "first_name");
  ("lastName", varchar "last_name");
  ("profileImageUrl", varchar "profile_image_url");
  ("stripeCustomerId", varchar "stripe_customer_id");
  ("stripeSubscriptionId", varchar "stripe_subscription_id");
  ("createdAt", timestamp "created_at" |> defaultNow);
  ("updatedAt", timestamp "updated_at" |> defaultNow)
].

Definition userModels : Table := pgTable "user_models" [
  ("id", serial "id" |> primaryKey);
  ("userId", varchar "user_id" |> references users "id" |> notNull |> unique);
  ("replicateModelId", varchar "replicate_model_id");
  ("triggerWord", varchar "trigger_word" |> notNull |> unique);
  ("trainingStatus", varchar "training_status" |> default (SqlText "pending"));
  ("modelName", varchar "model_name");
  ("createdAt", timestamp "created_at" |> defaultNow);
  ("completedAt", timestamp "completed_at")
].

Definition domains : Table := pgTable "domains" [
  ("id", serial "id" |> primaryKey);
  ("userId", varchar "user_id" |> references users "id" |> notNull);
  ("domain", varchar "domain" |> notNull |> unique);
  ("subdomain", varchar "subdomain" |> unique);
  ("isVerified", boolean "is_verified" |> default (SqlBool false));
  ("dnsRecords", jsonb "dns_records");
  ("sslStatus", varchar "ssl_status" |> default (SqlText "pending"));
  ("connectedTo", varchar "connected_to");
  ("resourceId", integer "resource_id");
  ("createdAt", timestamp "created_at" |> defaultNow);
  ("updatedAt", timestamp "updated_at" |> defaultNow)
].

(** The other tables of the schema whose declarations use the builders
    above.  A table that another one references is declared before it. *)
Definition projects : Table := pgTable "projects" [
  ("id", serial "id" |> primaryKey);
  ("userId", varchar "user_id" |> references users "id" |> notNull);
  ("name", varchar "name" |> notNull);
  ("description", text "description");
  ("status", varchar "status" |> default (SqlText "draft"));
  ("templateId", varchar "template_id");
  ("customDomain", varchar "custom_domain");
  ("aiImagesGenerated", boolean "ai_images_generated" |> default (SqlBool false));
  ("contentGenerated", boolean "content_generated" |> default (SqlBool false));
  ("paymentSetup", boolean "payment_setup" |> default (SqlBool false));
  ("createdAt", timestamp "created_at" |> defaultNow);
  ("updatedAt", timestamp "updated_at" |> defaultNow)
].

Definition aiImages : Table := pgTable "ai_images" [
  ("id", serial "id" |> primaryKey);
  ("userId", varchar "user_id" |> references users "id" |> notNull);
  ("projectId", serial "project_id" |> references projects "id");
  ("imageUrl", varchar "image_url" |> notNull);
  ("prompt", text "prompt");
  ("style", varchar "style");
  ("predictionId", varchar "prediction_id");
  ("generationStatus", varchar "generation_status" |> default (SqlText "pending"));
  ("isSelected", boolean "is_selected" |> default (SqlBool false));
  ("createdAt", timestamp "created_at" |> defaultNow)
].

Definition templates : Table := pgTable "templates" [
  ("id", serial "id" |> primaryKey);
  ("name", varchar "name" |> notNull);
  ("description", text "description");
  ("category", varchar "category");
  ("previewImageUrl", varchar "preview_image_url");
  ("templateData", jsonb "template_data");
  ("isActive", boolean "is_active" |> default (SqlBool true));
  ("createdAt", timestamp "created_at" |> defaultNow)
].

Definition subscriptions : Table := pgTable "subscriptions" [
  ("id", serial "id" |> primaryKey);
  ("userId", varchar "user_id" |> references users "id" |> notNull);
  ("plan", varchar "plan" |> notNull);
  ("status", varchar "status" |> notNull);
  ("stripeSubscriptionId", varchar "stripe_subscription_id");
  ("currentPeriodStart", timestamp "current_period_start");
  ("currentPeriodEnd", timestamp "current_period_end");
  ("createdAt", timestamp "created_at" |> defaultNow);
  ("updatedAt", timestamp "updated_at" |> defaultNow)
].

Definition onboardingData : Table := pgTable "onboarding_data" [
  ("id", serial "id" |> primaryKey);
  ("userId", varchar "user_id" |> references users "id" |> notNull);
  ("selfieUploadStatus", varchar "selfie_upload_status" |> default (SqlText "pending"));
  ("brandVibe", varchar "brand_vibe");
  ("brandStory", text "brand_story");
  ("targetClient", text "target_client");
  ("businessType", varchar "business_type");
  ("stylePreferences", varchar "style_preferences");
  ("photoSourceType", varchar "photo_source_type");
  ("ownPhotosUploaded", jsonb "own_photos_uploaded");
  ("brandedPhotosDetails", text "branded_photos_details");
  ("triggerWord", varchar "trigger_word");
  ("onboardingStep", serial "onboarding_step");
  ("completedAt", timestamp "completed_at");
  ("createdAt", timestamp "created_at" |> defaultNow);
  ("updatedAt", timestamp "updated_at" |> defaultNow)
].

Definition selfieUploads : Table := pgTable "selfie_uploads" [
  ("id", serial "id" |> primaryKey);
  ("userId", varchar "user_id" |> references users "id" |> notNull);
  ("filename", varchar "filename" |> notNull);
  ("originalUrl", varchar "original_url" |> notNull);
  ("processedUrl", varchar "processed_url");
  ("processingStatus", varchar "processing_status" |> default (SqlText "pending"));
  ("aiModelOutput", jsonb "ai_model_output");
  ("createdAt", timestamp "created_at" |> defaultNow)
].

Definition generatedImages : Table := pgTable "generated_images" [
  ("id", serial "id" |> primaryKey);
  ("userId", varchar "user_id" |> references users "id" |> notNull);
  ("modelId", integer "model_id" |> references userModels "id");
  ("category", varchar "category" |> notNull);
  ("subcategory", varchar "subcategory" |> notNull);
  ("prompt", text "prompt" |> notNull);
  ("imageUrls", text "image_urls" |> notNull);
  ("selectedUrl", text "selected_url");
  ("saved", boolean "saved" |> default (SqlBool false));
  ("createdAt", timestamp "created_at" |> defaultNow)
].

Definition brandbooks : Table := pgTable "brandbooks" [
  ("id", serial "id" |> primaryKey);
  ("userId", varchar "user_id" |> notNull |> unique);
  ("businessName", varchar "business_name" |> notNull);
  ("tagline", varchar "tagline");
  ("story", text "story");
  ("primaryFont", varchar "primary_font" |> default (SqlText "Times New Roman"));
  ("secondaryFont", varchar "secondary_font" |> default (SqlText "Inter"));
  ("primaryColor", varchar "primary_color" |> default (SqlText "#0a0a0a"));
  ("secondaryColor", varchar "secondary_color" |> default (SqlText "#ffffff"));
  ("accentColor", varchar "accent_color" |> default (SqlText "#f5f5f5"));
  ("logoType", varchar "logo_type" |> notNull);
  ("logoUrl", varchar "logo_url");
  ("logoPrompt", text "logo_prompt");
  ("moodboardStyle", varchar "moodboard_style" |> notNull);
  ("voiceTone", text "voice_tone");
  ("voicePersonality", text "voice_personality");
  ("keyPhrases", text "key_phrases");
  ("isPublished", boolean "is_published" |> default (SqlBool false));
  ("brandbookUrl", varchar "brandbook_url");
  ("templateType", varchar "template_type" |> default (SqlText "minimal-executive"));
  ("customDomain", varchar "custom_domain");
  ("isLive", boolean "is_live" |> default (SqlBool false));
  ("createdAt", timestamp "created_at" |> defaultNow);
  ("updatedAt", timestamp "updated_at" |> defaultNow)
].

Definition userProfiles : Table := pgTable "user_profiles" [
  ("id", varchar "id" |> primaryKey |> notNull);
  ("userId", varchar "user_id" |> notNull |> references users "id");
  ("fullName", varchar "full_name");
  ("phone", varchar "phone");
  ("birthDate", varchar "birth_date");
  ("location", varchar "location");
  ("instagramHandle", varchar "instagram_handle");
  ("websiteUrl", varchar "website_url");
  ("bio", text "bio");
  ("brandVibe", varchar "brand_vibe");
  ("goals", text "goals");
  ("preferences", jsonb "preferences");
  ("avatarUrl", varchar "avatar_url");
  ("createdAt", timestamp "created_at" |> defaultNow);
  ("updatedAt", timestamp "updated_at" |> defaultNow)
].

Definition dashboards : Table := pgTable "dashboards" [
  ("id", serial "id" |> primaryKey);
  ("userId", varchar "user_id" |> notNull |> unique);
  ("templateType", varchar "template_type" |> notNull);
  ("config", jsonb "config" |> notNull);
  ("onboardingData", jsonb "onboarding_data");
  ("quickLinks", jsonb "quick_links");
  ("customUrl", varchar "custom_url");
  ("isPublished", boolean "is_published" |> default (SqlBool false));
  ("backgroundColor", varchar "background_color" |> default (SqlText "#ffffff"));
  ("accentColor", varchar "accent_color" |> default (SqlText "#0a0a0a"));
  ("isLive", boolean "is_live" |> default (SqlBool false));
  ("createdAt", timestamp "created_at" |> defaultNow);
  ("updatedAt", timestamp "updated_at" |> defaultNow)
].

Definition landingPages : Table := pgTable "landing_pages" [
  ("id", serial "id" |> primaryKey);
  ("userId", varchar "user_id" |> notNull);
  ("template", varchar "template" |> notNull);
  ("config", jsonb "config" |> notNull);
  ("onboardingData", jsonb "onboarding_data");
  ("isPublished", boolean "is_published" |> default (SqlBool false));
  ("customUrl", varchar "custom_url");
  ("customDomain", varchar "custom_domain");
  ("isLive", boolean "is_live" |> default (SqlBool false));
  ("seoTitle", varchar "seo_title");
  ("seoDescription", text "seo_description");
  ("url", varchar "url");
  ("createdAt", timestamp "created_at" |> defaultNow);
  ("updatedAt", timestamp "updated_at" |> defaultNow)
].

(** The tables declared above.  [sessions] (declared with an index) and
    [userUsage] and [usageHistory] (with [decimal] columns) are not among
    them. *)
Definition tables : list Table := [
  users; projects; aiImages; templates; subscriptions; onboardingData;
  selfieUploads; userModels; generatedImages; brandbooks; userProfiles;
  dashboards; landingPages; domains
].
End Schema.

(** ** A database over the schema

    The rows of every table, under the table's name, and the meaning of the
    [REFERENCES] constraints, which span two tables. *)
Module PgDatabase.
Import PgCore.

Abbreviation Database := (gmap string (list Row)).

Definition tableRows (db : Database) (name : string) : list Row :=
  match db !! name with
  | Some rows => rows
  | None => []
  end.

Definition rowsOf (db : Database) (t : Table) : list Row :=
  tableRows db (tableName t).

(** [REFERENCES table(col)]: a value that is there is the value of [col] in
    some row of [table]; [NULL] references nothing. *)
Definition foreignKeyHolds (db : Database) (rows : list Row) (c : Column) : bool :=
  match foreignKey c with
  | None => true
  | Some (table, col) =>
      forallb (λ r,
        match cell c r with
        | None => true
        | Some v =>
            existsb (λ r' : Row, bool_decide (r' !! col = Some v))
                    (tableRows db table)
        end) rows
  end.

(** Every table holds on its rows, and every foreign key resolves. *)
Definition databaseHolds (tables : list Table) (db : Database) : bool :=
  forallb (λ t,
    tableHolds t (rowsOf db t)
    && forallb (λ kc, foreignKeyHolds db (rowsOf db t) (snd kc)) (columns t))
    tables.
End PgDatabase.

(** ** Storage layers and values for the examples *)

(** A storage that keeps both collections in memory, keyed by user id. *)
Module MemoryStorage.
Record t : Type := mk {
  styleguides : gmap string JsValue;
  onboarding : gmap string JsValue
}.

Definition empty : t := mk ∅ ∅.

#[global] Instance storage : Storage t := {|
  createOrUpdateStyleguide userId data s :=
    match userId with
    | JStr u => (Ok data, mk (<[u := data]> (styleguides s)) (onboarding s))
    | _ => (Throw (Rejected (JStr "invalid user id")), s)
    end;
  getOnboardingData userId s :=
    match userId with
    | JStr u => (Ok (default JUndefined (onboarding s !! u)), s)
    | _ => (Ok JUndefined, s)
    end
|}.
End MemoryStorage.

(** A storage whose every call is rejected. *)
Module FailingStorage.
#[global] Instance storage : Storage unit := {|
  createOrUpdateStyleguide _ _ s := (Throw (Rejected (JStr "connection refused")), s);
  getOnboardingData _ s := (Throw (Rejected (JStr "connection refused")), s)
|}.
End FailingStorage.

(** A template value to run the responder on; the constant exported by
    [template-minimalistic] enters the routes as a parameter. *)
Definition sampleTemplate : Template.t := {|
  Template.id := "minimalistic";
  Template.name := "Refined Minimalist";
  Template.description := "Clean Lines And Generous Whitespace";
  Template.colors := Colors.mk "#1a1a1a" [("secondary", JStr "#666666")];
  Template.typography := Typography.mk "Helvetica Neue" [("body", JStr "Inter")];
  Template.voiceProfile := JObj [("tone", JStr "calm")];
  Template.visualElements := JObj [("borders", JBool false)]
|}.

Definition sampleClock (n : nat) : string :=
  match n with
  | O => "2025-07-01T10:00:00.000Z"
  | _ => "2025-07-01T10:00:00.001Z"
  end.

Definition sampleWorld : World MemoryStorage.t :=
  mkWorld MemoryStorage.empty [] [] sampleClock 0.

Definition laterWorld : World MemoryStorage.t :=
  mkWorld MemoryStorage.empty [] [] (λ _, "2026-01-15T08:30:00.000Z") 0.

Definition demoRequest : Request.t := Request.mk "demo123" JUndefined JUndefined.

Definition anonymousPost : Request.t :=
  Request.mk "" JUndefined (JObj [("title", JStr "Draft")]).

Definition offlineWorld : World unit := mkWorld tt [] [] sampleClock 0.

Definition signedIn (userId : string) : JsValue :=
  JObj [("claims", JObj [("sub", JStr userId)])].

(** Rows for the examples: two trained models of two users, and two custom
    domains of one user, neither with a subdomain. *)
Definition sampleModels : list PgCore.Row := [
  {[ "id" := SqlInt 1; "user_id" := SqlText "u1"; "trigger_word" := SqlText "user_u1";
     "training_status" := SqlText "completed" ]};
  {[ "id" := SqlInt 2; "user_id" := SqlText "u2"; "trigger_word" := SqlText "user_u2";
     "training_status" := SqlText "pending" ]}
].

Definition sampleDomains : list PgCore.Row := [
  {[ "id" := SqlInt 1; "user_id" := SqlText "u1"; "domain" := SqlText "sarah.example" ]};
  {[ "id" := SqlInt 2; "user_id" := SqlText "u1"; "domain" := SqlText "studio.example" ]}
].

(** One brandbook and one dashboard of a user, and two landing pages of
    that user. *)
Definition sampleBrandbooks : list PgCore.Row := [
  {[ "id" := SqlInt 1; "user_id" := SqlText "u1"; "business_name" := SqlText "Studio";
     "logo_type" := SqlText "upload"; "moodboard_style" := SqlText "editorial" ]}
].

Definition sampleDashboards : list PgCore.Row := [
  {[ "id" := SqlInt 1; "user_id" := SqlText "u1";
     "template_type" := SqlText "coach-consultant"; "config" := SqlJson "{}" ]}
].

Definition sampleLandingPages : list PgCore.Row := [
  {[ "id" := SqlInt 1; "user_id" := SqlText "u1"; "template" := SqlText "booking";
     "config" := SqlJson "{}" ]};
  {[ "id" := SqlInt 2; "user_id" := SqlText "u1"; "template" := SqlText "portfolio";
     "config" := SqlJson "{}" ]}
].

(** A small database: two users, a project with an image, the two models
    and an image generated with the first. *)
Definition sampleDatabase : PgDatabase.Database := {[
  "users" := [ {[ "id" := SqlText "u1"; "email" := SqlText "u1@example.com" ]};
               {[ "id" := SqlText "u2" ]} ];
  "projects" := [ {[ "id" := SqlInt 7; "user_id" := SqlText "u1";
                     "name" := SqlText "Launch" ]} ];
  "ai_images" := [ {[ "id" := SqlInt 1; "user_id" := SqlText "u1";
                      "project_id" := SqlInt 7;
                      "image_url" := SqlText "https://img.example/1.png" ]} ];
  "user_models" := sampleModels;
  "generated_images" := [ {[ "id" := SqlInt 1; "user_id" := SqlText "u1";
                             "model_id" := SqlInt 1;
                             "category" := SqlText "Editorial";
                             "subcategory" := SqlText "Working";
                             "prompt" := SqlText "portrait";
                             "image_urls" := SqlText "[]" ]} ]
]}.

(** ** Vocabulary of the statements *)

(** The lower-cased message contains one of the three keywords. *)
Definition mentionsKeyword (s : string) : Prop :=
  Substring "create" (toLowerCase s) ∨
  Substring "new" (toLowerCase s) ∨
  Substring "generate" (toLowerCase s).

(** The context the chat route hands to the responder. *)
Definition chatContext (minimalisticTemplate : Template.t) (req : Request.t)
    (onboardingData : JsValue) : Context.t := {|
  Context.message := optChain (Request.body req) "message";
  Context.userId := optChain (optChain (Request.user req) "claims") "sub";
  Context.onboardingData := onboardingData;
  Context.currentStyleguide := optChain (Request.body req) "currentStyleguide";
  Context.availableTemplates := [minimalisticTemplate]
|}.

(** The outcome of the chat route's [catch] block. *)
Definition chatFailure {Store : Type} (e : exn) (w : World Store)
    : Result Response.t * World Store :=
  (Ok (statusJson 500 (MessageBody "Failed to process styleguide request")),
   mkWorld (store w) (calls w)
     (("Error in SANDRA styleguide chat:", e) :: console w) (clock w) (reads w)).

(** A response is either a success or one of the three failures, and a
    failure carries [{ message }]. *)
Definition wellFormed (r : Response.t) : Prop :=
  Response.status r = 200%Z ∨
  (Response.status r ∈ [401%Z; 404%Z; 500%Z] ∧ ∃ m, Response.body r = MessageBody m).

(** A byte in [A]..[Z]. *)
Definition isUpperLatin (c : ascii) : bool :=
  let n := N_of_ascii c in (65 <=? n)%N && (n <=? 90)%N.

(** Two bytes that are the same, or the upper and the lower case of one
    Basic Latin letter. *)
Definition caseTwin (a b : ascii) : bool :=
  Ascii.eqb a b
  || (isUpperLatin a && Ascii.eqb b (ascii_of_N (N_of_ascii a + 32)))
  || (isUpperLatin b && Ascii.eqb a (ascii_of_N (N_of_ascii b + 32))).

(** Two strings that differ at most in the case of Basic Latin letters. *)
Fixpoint sameUpToLatinCase (s1 s2 : string) : bool :=
  match s1, s2 with
  | EmptyString, EmptyString => true
  | String a r1, String b r2 => caseTwin a b && sameUpToLatinCase r1 r2
  | _, _ => false
  end.

(** A UTF-8 continuation byte, [10xxxxxx]: every byte of a character's
    encoding but the first. *)
Definition isContinuationByte (c : ascii) : bool :=
  let n := N_of_ascii c in (128 <=? n)%N && (n <? 192)%N.

(** The number of characters (code points) of a string, read as UTF-8: its
    bytes that are not continuation bytes. *)
Fixpoint codePoints (s : string) : nat :=
  match s with
  | EmptyString => 0
  | String c rest =>
      (if isContinuationByte c then 0 else 1) + codePoints rest
  end.

(** * Properties *)

(** ** The keyword classifier *)

Lemma startsWith_spec s pat :
  startsWith s pat = true ↔ ∃ post, s = pat +:+ post.
Proof.
  revert s. induction pat as [|p pat IH]; intros s.
  - destruct s; simpl; (split; [intros _; eexists; reflexivity | done]).
  - destruct s as [|c s]; simpl.
    + split; [done | intros [post H]; discriminate].
    + rewrite andb_true_iff, IH. split.
      * intros [Hc [post ->]]. apply Ascii.eqb_eq in Hc as ->. by exists post.
      * intros [post H]. injection H as -> ->.
        split; [apply Ascii.eqb_refl | by exists post].
Qed.

Lemma includes_spec s pat : includes s pat = true ↔ Substring pat s.
Proof.
  unfold Substring. induction s as [|c s IH].
  - cbn [includes]. rewrite orb_false_r, startsWith_spec. split.
    + intros [post H]. by exists "", post.
    + intros [pre [post H]]. destruct pre; [by exists post | discriminate].
  - cbn [includes]. rewrite orb_true_iff, startsWith_spec, IH. split.
    + intros [[post H] | [pre [post H]]].
      * by exists "", post.
      * exists (String c pre), post. simpl. by rewrite H.
    + intros [pre [post H]]. destruct pre as [|c' pre].
      * left. by exists post.
      * right. injection H as _ ->. by exists pre, post.
Qed.

Lemma isCreationRequest_string {Store} (s : string) (w : World Store) :
  isCreationRequest (JStr s) w =
    (Ok (includes (toLowerCase s) "create"
         || includes (toLowerCase s) "new"
         || includes (toLowerCase s) "generate"), w).
Proof.
  unfold isCreationRequest, bind, callToLowerCase, ret.
  destruct (includes (toLowerCase s) "create"); [done|].
  by destruct (includes (toLowerCase s) "new").
Qed.

Lemma isCreationRequest_other {Store} (message : JsValue) (w : World Store) :
  (∀ s, message ≠ JStr s) → isCreationRequest message w = (Throw TypeError, w).
Proof. intros H. destruct message; try done. by destruct (H s). Qed.

Lemma keyword_reflect (s : string) :
  includes (toLowerCase s) "create" || includes (toLowerCase s) "new"
  || includes (toLowerCase s) "generate" = true ↔ mentionsKeyword s.
Proof.
  unfold mentionsKeyword. rewrite !orb_true_iff, !includes_spec. tauto.
Qed.

(** The world is left as it was, whatever the message. *)
Lemma isCreationRequest_world {Store} (message : JsValue) (w : World Store) :
  snd (isCreationRequest message w) = w.
Proof.
  destruct message; try done. by rewrite isCreationRequest_string.
Qed.

(** [generateSandraStyleguideResponse] continues from the classifier's
    verdict. *)
Lemma generate_unfold {Store} (context : Context.t) (w : World Store) :
  generateSandraStyleguideResponse context w =
    match isCreationRequest (Context.message context) w with
    | (Ok true, w') =>
        match Context.availableTemplates context with
        | [] => (Throw TypeError, w')
        | template :: _ =>
            (Ok {|
               ChatResponse.type := "styleguide_created";
               ChatResponse.message := createdMessage template;
               ChatResponse.styleguideData := Some {|
                 StyleguideData.templateId := Template.id template;
                 StyleguideData.templateName := Template.name template;
                 StyleguideData.colors := Template.colors template;
                 StyleguideData.typography := Template.typography template;
                 StyleguideData.voiceProfile := Template.voiceProfile template;
                 StyleguideData.visualElements := Template.visualElements template;
                 StyleguideData.personalMission :=
                   jsOr (optChain (Context.onboardingData context) "personalMission")
                        (JStr "Your unique mission and vision");
                 StyleguideData.brandVoice :=
                   jsOr (optChain (Context.onboardingData context) "brandVoice")
                        (JStr "Professional and authentic");
                 StyleguideData.targetAudience :=
                   jsOr (optChain (Context.onboardingData context) "targetAudience")
                        (JStr "Your ideal clients")
               |};
               ChatResponse.templateApplied := Some (Template.id template);
               ChatResponse.suggestions := None
             |}, w')
        end
    | (Ok false, w') =>
        (Ok {|
           ChatResponse.type := "conversation";
           ChatResponse.message := conversationMessage;
           ChatResponse.styleguideData := None;
           ChatResponse.templateApplied := None;
           ChatResponse.suggestions :=
             Some ["Create my styleguide"; "Show me templates";
                   "What information do you need?"]
         |}, w')
    | (Throw e, w') => (Throw e, w')
    end.
Proof.
  unfold generateSandraStyleguideResponse, bind at 1.
  destruct (isCreationRequest (Context.message context) w) as [[[|]|e] w']; try done.
  by destruct (Context.availableTemplates context).
Qed.

(** C1. A message string is classified as a creation request exactly when
    its lower-cased text contains "create", "new" or "generate" as a
    substring; with a template at hand the classification shows in the
    [type] of the response, which is "conversation" for every other
    message.  "CREATE", "New", "GENERATE" and "created" are creation
    requests. *)
Theorem C1_creation_request_iff_keyword :
  ∀ (Store : Type) (w : World Store),
    (∀ s : string,
       ∃ b, isCreationRequest (JStr s) w = (Ok b, w) ∧ (b = true ↔ mentionsKeyword s))
    ∧ (∀ (s : string) (userId onboardingData currentStyleguide : JsValue)
         (template : Template.t) (templates : list Template.t),
         ∃ r, generateSandraStyleguideResponse
                (Context.mk (JStr s) userId onboardingData currentStyleguide
                            (template :: templates)) w = (Ok r, w)
              ∧ (ChatResponse.type r = "styleguide_created" ↔ mentionsKeyword s)
              ∧ (ChatResponse.type r = "conversation" ↔ ¬ mentionsKeyword s))
    ∧ isCreationRequest (JStr "CREATE") w = (Ok true, w)
    ∧ isCreationRequest (JStr "New") w = (Ok true, w)
    ∧ isCreationRequest (JStr "GENERATE") w = (Ok true, w)
    ∧ isCreationRequest (JStr "created") w = (Ok true, w).
Proof.
  intros Store w. split; [|split].
  - intros s. eexists. split; [apply isCreationRequest_string|].
    apply keyword_reflect.
  - intros s userId onboardingData currentStyleguide template templates.
    rewrite generate_unfold. cbn [Context.message Context.availableTemplates].
    rewrite isCreationRequest_string.
    pose proof (keyword_reflect s) as Hk.
    destruct (_ || _ || _); eexists; (split; [reflexivity|]); cbn.
    + split; split; try done; [by intros; apply Hk | intros H; by destruct H; apply Hk].
    + assert (¬ mentionsKeyword s) as Hn by (intros H; by apply Hk in H).
      split; split; done.
  - repeat split; by rewrite isCreationRequest_string.
Qed.

(** C2. When the message is classified as a creation request and the list
    of templates is not empty, the response has type "styleguide_created";
    [templateId] and [templateApplied] are the id of the first template;
    [styleguideData] carries that template's colors, typography, voice
    profile and visual elements, together with the mission, voice and
    audience of the onboarding data wherever the onboarding data has them.
    "please create something" is such a message. *)
Theorem C2_creation_uses_first_template :
  ∀ (Store : Type) (w : World Store) (context : Context.t)
    (template : Template.t) (templates : list Template.t),
    fst (isCreationRequest (Context.message context) w) = Ok true →
    Context.availableTemplates context = template :: templates →
    (∃ r d,
       generateSandraStyleguideResponse context w = (Ok r, w)
       ∧ ChatResponse.type r = "styleguide_created"
       ∧ ChatResponse.templateApplied r = Some (Template.id template)
       ∧ ChatResponse.styleguideData r = Some d
       ∧ StyleguideData.templateId d = Template.id template
       ∧ StyleguideData.colors d = Template.colors template
       ∧ StyleguideData.typography d = Template.typography template
       ∧ StyleguideData.voiceProfile d = Template.voiceProfile template
       ∧ StyleguideData.visualElements d = Template.visualElements template
       ∧ (∀ v, optChain (Context.onboardingData context) "personalMission" = v →
               truthy v = true → StyleguideData.personalMission d = v)
       ∧ (∀ v, optChain (Context.onboardingData context) "brandVoice" = v →
               truthy v = true → StyleguideData.brandVoice d = v)
       ∧ (∀ v, optChain (Context.onboardingData context) "targetAudience" = v →
               truthy v = true → StyleguideData.targetAudience d = v))
    ∧ (∀ userId onboardingData currentStyleguide : JsValue,
         ∃ r d,
           generateSandraStyleguideResponse
             (Context.mk (JStr "please create something") userId onboardingData
                         currentStyleguide (template :: templates)) w = (Ok r, w)
           ∧ ChatResponse.type r = "styleguide_created"
           ∧ ChatResponse.styleguideData r = Some d
           ∧ StyleguideData.templateId d = Template.id template).
Proof.
  intros Store w context template templates Hreq Htpl.
  split;
    [|intros userId onboardingData currentStyleguide;
      rewrite generate_unfold; cbn [Context.message Context.availableTemplates];
      rewrite isCreationRequest_string; by do 2 eexists].
  rewrite generate_unfold, Htpl.
  pose proof (isCreationRequest_world (Context.message context) w) as Hw.
  destruct (isCreationRequest (Context.message context) w) as [r w'].
  cbn in Hreq, Hw. subst r w'.
  do 2 eexists. split; [reflexivity|]. cbn.
  repeat (split; [reflexivity|]).
  unfold jsOr. repeat split; intros v <- ->; reflexivity.
Qed.

Lemma C2_creation_uses_first_template_witness :
  ∃ r d,
    generateSandraStyleguideResponse
      (Context.mk (JStr "please create something") (JStr "u1")
         (JObj [("personalMission", JStr "Teach founders to sell");
                ("brandVoice", JStr "")])
         JUndefined [sampleTemplate]) sampleWorld = (Ok r, sampleWorld)
    ∧ ChatResponse.type r = "styleguide_created"
    ∧ ChatResponse.styleguideData r = Some d
    ∧ StyleguideData.templateId d = "minimalistic"
    ∧ StyleguideData.personalMission d = JStr "Teach founders to sell".
Proof.
  destruct (C2_creation_uses_first_template MemoryStorage.t sampleWorld
              (Context.mk (JStr "please create something") (JStr "u1")
                 (JObj [("personalMission", JStr "Teach founders to sell");
                        ("brandVoice", JStr "")])
                 JUndefined [sampleTemplate])
              sampleTemplate [] eq_refl eq_refl)
    as [(r & d & Hrun & Hty & _ & Hd & Hid & _ & _ & _ & _ & Hm & _) _].
  exists r, d. repeat split; try assumption.
  exact (Hm _ eq_refl eq_refl).
Defined.

(** ** What each route computes *)

Section RouteEquations.
Context {Store : Type} `{!Storage Store}.
Variable minimalisticTemplate : Template.t.

Lemma getStyleguide_demo (req : Request.t) (w : World Store) :
  Request.userId req = "demo123" →
  getStyleguide req w =
    (Ok (json (StyleguideBody
                 (demoStyleguide (clock w (reads w)) (clock w (S (reads w)))))),
     mkWorld (store w) (calls w) (console w) (clock w) (S (S (reads w)))).
Proof. intros H. unfold getStyleguide, tryCatch, bind. by rewrite H. Qed.

Lemma getStyleguide_other (req : Request.t) (w : World Store) :
  Request.userId req ≠ "demo123" →
  getStyleguide req w =
    (Ok (statusJson 404 (MessageBody "Styleguide not found")), w).
Proof.
  intros H. unfold getStyleguide, tryCatch.
  destruct (String.eqb_spec (Request.userId req) "demo123"); done.
Qed.

Lemma postStyleguide_unfold (req : Request.t) (w : World Store) :
  postStyleguide req w =
    if truthy (claimsSub req) then
      match createOrUpdateStyleguide (claimsSub req) (Request.body req) (store w) with
      | (Ok styleguide, s) =>
          (Ok (json (StoredBody styleguide)),
           mkWorld s
             (CallCreateOrUpdateStyleguide (claimsSub req) (Request.body req) :: calls w)
             (console w) (clock w) (reads w))
      | (Throw e, s) =>
          (Ok (statusJson 500 (MessageBody "Failed to create styleguide")),
           mkWorld s
             (CallCreateOrUpdateStyleguide (claimsSub req) (Request.body req) :: calls w)
             (("Error creating styleguide:", e) :: console w) (clock w) (reads w))
      end
    else (Ok (statusJson 401 (MessageBody "User not authenticated")), w).
Proof.
  unfold postStyleguide, tryCatch, bind, awaitCreateOrUpdateStyleguide.
  destruct (truthy (claimsSub req)); [|done]. cbn.
  by destruct (createOrUpdateStyleguide _ _ _) as [[v|e] s].
Qed.

Lemma postStyleguideChat_unfold (req : Request.t) (w : World Store) :
  postStyleguideChat minimalisticTemplate req w =
    if truthy (claimsSub req) then
      if nullish (Request.body req) then chatFailure TypeError w
      else
        let called := CallGetOnboardingData (claimsSub req) :: calls w in
        match getOnboardingData (claimsSub req) (store w) with
        | (Ok onboardingData, s) =>
            match generateSandraStyleguideResponse
                    (chatContext minimalisticTemplate req onboardingData)
                    (mkWorld s called (console w) (clock w) (reads w)) with
            | (Ok response, w') => (Ok (json (ChatBody response)), w')
            | (Throw e, w') => chatFailure e w'
            end
        | (Throw e, s) =>
            chatFailure e (mkWorld s called (console w) (clock w) (reads w))
        end
    else (Ok (statusJson 401 (MessageBody "User not authenticated")), w).
Proof.
  unfold postStyleguideChat, tryCatch, bind at 1, destructure.
  destruct (truthy (claimsSub req)); [|done]. cbn [negb].
  destruct (nullish (Request.body req)); [done|].
  unfold bind, ret, awaitGetOnboardingData, chatContext. cbn.
  destruct (getOnboardingData _ _) as [[ob|e] s]; [|done].
  by destruct (generateSandraStyleguideResponse _ _) as [[r|e] w'].
Qed.
End RouteEquations.

(** ** The responder, continued *)

(** With the onboarding data absent, each [onboardingData?.field || ...]
    takes its right operand. *)
Lemma placeholders_when_absent {Store} (w : World Store) (context : Context.t)
    (template : Template.t) (templates : list Template.t) :
  fst (isCreationRequest (Context.message context) w) = Ok true →
  nullish (Context.onboardingData context) = true →
  Context.availableTemplates context = template :: templates →
  ∃ r d,
    generateSandraStyleguideResponse context w = (Ok r, w)
    ∧ ChatResponse.styleguideData r = Some d
    ∧ StyleguideData.personalMission d = JStr "Your unique mission and vision"
    ∧ StyleguideData.brandVoice d = JStr "Professional and authentic"
    ∧ StyleguideData.targetAudience d = JStr "Your ideal clients".
Proof.
  intros Hreq Hnull Htpl.
  rewrite generate_unfold, Htpl.
  pose proof (isCreationRequest_world (Context.message context) w) as Hw.
  destruct (isCreationRequest (Context.message context) w) as [r w'].
  cbn in Hreq, Hw. subst r w'.
  do 2 eexists. split; [reflexivity|]. cbn.
  destruct (Context.onboardingData context); try discriminate Hnull; done.
Qed.

(** C3. For a creation request, when the onboarding data is absent
    ([undefined] or [null]) the returned [styleguideData] has the three
    placeholder strings, verbatim; and this is what the chat route sends
    when the storage lookup resolves to an absent value. *)
Theorem C3_placeholders_without_onboarding :
  ∀ (Store : Type) (storage : Storage Store) (w : World Store),
    (∀ (context : Context.t) (template : Template.t) (templates : list Template.t),
       fst (isCreationRequest (Context.message context) w) = Ok true →
       nullish (Context.onboardingData context) = true →
       Context.availableTemplates context = template :: templates →
       ∃ r d,
         generateSandraStyleguideResponse context w = (Ok r, w)
         ∧ ChatResponse.styleguideData r = Some d
         ∧ StyleguideData.personalMission d = JStr "Your unique mission and vision"
         ∧ StyleguideData.brandVoice d = JStr "Professional and authentic"
         ∧ StyleguideData.targetAudience d = JStr "Your ideal clients")
    ∧ (∀ (minimalisticTemplate : Template.t) (req : Request.t)
         (onboardingData : JsValue) (s : Store),
         truthy (claimsSub req) = true →
         nullish (Request.body req) = false →
         fst (isCreationRequest (optChain (Request.body req) "message") w) = Ok true →
         getOnboardingData (claimsSub req) (store w) = (Ok onboardingData, s) →
         nullish onboardingData = true →
         ∃ r d,
           fst (postStyleguideChat minimalisticTemplate req w) = Ok (json (ChatBody r))
           ∧ ChatResponse.styleguideData r = Some d
           ∧ StyleguideData.personalMission d = JStr "Your unique mission and vision"
           ∧ StyleguideData.brandVoice d = JStr "Professional and authentic"
           ∧ StyleguideData.targetAudience d = JStr "Your ideal clients").
Proof.
  intros Store storage w.
  split; [apply placeholders_when_absent|].
  intros tpl req ob s Hsub Hbody Hreq Hget Hnull.
  rewrite postStyleguideChat_unfold, Hsub, Hbody, Hget. cbn zeta.
  set (w1 := mkWorld s _ _ _ _).
  destruct (placeholders_when_absent w1 (chatContext tpl req ob) tpl [])
    as (r & d & Hrun & Hd); [|done|done|].
  - cbn [chatContext Context.message].
    destruct (optChain (Request.body req) "message") as [| | | |m| | |];
      try discriminate Hreq.
    rewrite isCreationRequest_string in Hreq |- *. exact Hreq.
  - rewrite Hrun. by exists r, d.
Qed.

Lemma C3_placeholders_without_onboarding_witness :
  (∃ r d,
     generateSandraStyleguideResponse
       (Context.mk (JStr "Generate it") (JStr "u1") JUndefined JNull [sampleTemplate])
       sampleWorld = (Ok r, sampleWorld)
     ∧ ChatResponse.styleguideData r = Some d
     ∧ StyleguideData.personalMission d = JStr "Your unique mission and vision"
     ∧ StyleguideData.brandVoice d = JStr "Professional and authentic"
     ∧ StyleguideData.targetAudience d = JStr "Your ideal clients")
  ∧ (∃ r d,
       fst (postStyleguideChat sampleTemplate
              (Request.mk "" (signedIn "u1") (JObj [("message", JStr "a NEW look")]))
              sampleWorld) = Ok (json (ChatBody r))
       ∧ ChatResponse.styleguideData r = Some d
       ∧ StyleguideData.personalMission d = JStr "Your unique mission and vision"
       ∧ StyleguideData.brandVoice d = JStr "Professional and authentic"
       ∧ StyleguideData.targetAudience d = JStr "Your ideal clients").
Proof.
  split.
  - exact (proj1 (C3_placeholders_without_onboarding MemoryStorage.t _ sampleWorld)
             (Context.mk (JStr "Generate it") (JStr "u1") JUndefined JNull [sampleTemplate])
             sampleTemplate [] eq_refl eq_refl eq_refl).
  - exact (proj2 (C3_placeholders_without_onboarding MemoryStorage.t _ sampleWorld)
             sampleTemplate
             (Request.mk "" (signedIn "u1") (JObj [("message", JStr "a NEW look")]))
             JUndefined MemoryStorage.empty eq_refl eq_refl eq_refl eq_refl eq_refl).
Defined.

(** C7. A message that is not classified as a creation request is answered
    with type "conversation", the fixed invitation and exactly the three
    suggestions "Create my styleguide", "Show me templates" and "What
    information do you need?"; "hello" is such a message. *)
Theorem C7_conversation_branch :
  ∀ (Store : Type) (w : World Store) (context : Context.t),
    fst (isCreationRequest (Context.message context) w) = Ok false →
    (∃ r,
       generateSandraStyleguideResponse context w = (Ok r, w)
       ∧ ChatResponse.type r = "conversation"
       ∧ ChatResponse.message r = conversationMessage
       ∧ ChatResponse.suggestions r =
           Some ["Create my styleguide"; "Show me templates";
                 "What information do you need?"]
       ∧ (∀ l, ChatResponse.suggestions r = Some l → List.length l = 3%nat)
       ∧ ChatResponse.styleguideData r = None)
    ∧ isCreationRequest (JStr "hello") w = (Ok false, w).
Proof.
  intros Store w context Hreq.
  split; [|by rewrite isCreationRequest_string].
  rewrite generate_unfold.
  pose proof (isCreationRequest_world (Context.message context) w) as Hw.
  destruct (isCreationRequest (Context.message context) w) as [r w'].
  cbn in Hreq, Hw. subst r w'.
  eexists. split; [reflexivity|]. cbn. repeat split.
  by intros l [= <-].
Qed.

Lemma C7_conversation_branch_witness :
  ∃ r,
    generateSandraStyleguideResponse
      (Context.mk (JStr "hello") (JStr "u1") JNull JNull [sampleTemplate]) sampleWorld
      = (Ok r, sampleWorld)
    ∧ ChatResponse.type r = "conversation"
    ∧ ChatResponse.suggestions r =
        Some ["Create my styleguide"; "Show me templates";
              "What information do you need?"].
Proof.
  destruct (C7_conversation_branch MemoryStorage.t sampleWorld
              (Context.mk (JStr "hello") (JStr "u1") JNull JNull [sampleTemplate])
              eq_refl) as [(r & Hrun & Hty & _ & Hs & _) _].
  exists r. by repeat split.
Defined.

(** The responder never touches the world, and its outcome does not depend
    on it. *)
Lemma generate_pure {Store} (context : Context.t) :
  ∃ outcome : Result ChatResponse.t,
    ∀ w : World Store, generateSandraStyleguideResponse context w = (outcome, w).
Proof.
  destruct (Context.message context) as [| | | |s| | |] eqn:Hm;
    try (exists (Throw TypeError); intros w; by rewrite generate_unfold, Hm).
  destruct (includes (toLowerCase s) "create" || includes (toLowerCase s) "new"
            || includes (toLowerCase s) "generate") eqn:Hb.
  - destruct (Context.availableTemplates context) as [|t ts] eqn:Ht;
      eexists; intros w;
      rewrite generate_unfold, Hm, isCreationRequest_string, Hb, Ht; reflexivity.
  - eexists; intros w.
    rewrite generate_unfold, Hm, isCreationRequest_string, Hb; reflexivity.
Qed.


(** C10. The response does not depend on [currentStyleguide]: two contexts
    that differ only in that field have the same outcome. *)
Theorem C10_independent_of_current_styleguide :
  ∀ (Store : Type) (w : World Store) (message userId onboardingData : JsValue)
    (availableTemplates : list Template.t) (draft1 draft2 : JsValue),
    generateSandraStyleguideResponse
      (Context.mk message userId onboardingData draft1 availableTemplates) w
    = generateSandraStyleguideResponse
      (Context.mk message userId onboardingData draft2 availableTemplates) w.
Proof.
  intros. by rewrite !generate_unfold.
Qed.

(** ** The routes *)

(** C4, as stated: the document served for "demo123" is fixed.  It is not:
    the same request served at two different times gets two different
    documents, because [createdAt] and [updatedAt] are read off the clock. *)
Lemma C4_demo_document_not_fixed :
  Request.userId demoRequest = "demo123"
  ∧ store sampleWorld = store laterWorld
  ∧ fst (getStyleguide demoRequest sampleWorld)
    ≠ fst (getStyleguide demoRequest laterWorld).
Proof. repeat split. discriminate. Qed.

(** C4, amended.  For "demo123" the route answers 200 with the demo
    document, every field of which is the literal of the source except
    [createdAt] and [updatedAt], which are two successive readings of the
    clock; [isActive] is true.  Every other user id is answered 404 with a
    message body.  Neither case calls the storage or changes what is
    stored. *)
Theorem C4_demo_styleguide_route :
  ∀ (Store : Type) (req : Request.t) (w : World Store),
    (Request.userId req = "demo123" →
       ∃ w',
         getStyleguide req w =
           (Ok (Response.mk 200
                  (StyleguideBody
                     (demoStyleguide (clock w (reads w)) (clock w (S (reads w)))))),
            w')
         ∧ Styleguide.isActive
             (demoStyleguide (clock w (reads w)) (clock w (S (reads w)))) = true
         ∧ store w' = store w ∧ calls w' = calls w ∧ console w' = console w)
    ∧ (Request.userId req ≠ "demo123" →
         getStyleguide req w =
           (Ok (Response.mk 404 (MessageBody "Styleguide not found")), w)).
Proof.
  intros Store req w. split; intros H.
  - eexists. split; [by apply getStyleguide_demo|]. done.
  - by apply getStyleguide_other.
Qed.

Lemma C4_demo_styleguide_route_witness :
  (∃ w',
     getStyleguide demoRequest sampleWorld =
       (Ok (Response.mk 200
              (StyleguideBody
                 (demoStyleguide "2025-07-01T10:00:00.000Z" "2025-07-01T10:00:00.001Z"))),
        w')
     ∧ store w' = MemoryStorage.empty ∧ calls w' = [])
  ∧ getStyleguide anonymousPost sampleWorld =
      (Ok (Response.mk 404 (MessageBody "Styleguide not found")), sampleWorld).
Proof.
  split.
  - destruct (proj1 (C4_demo_styleguide_route MemoryStorage.t demoRequest sampleWorld)
                eq_refl) as (w' & Hrun & _ & Hs & Hc & _).
    exists w'. by repeat split.
  - apply (proj2 (C4_demo_styleguide_route MemoryStorage.t anonymousPost sampleWorld)).
    discriminate.
Defined.

(** C5. When the caller's identity is missing ([req.user?.claims?.sub] is
    [undefined], or any other falsy value), [POST /api/styleguide] answers
    401 with a message body and leaves the world as it was: no storage
    method is invoked and what is stored is unchanged. *)
Theorem C5_unauthenticated_post_is_rejected :
  ∀ (Store : Type) (storage : Storage Store) (req : Request.t) (w : World Store),
    truthy (claimsSub req) = false →
    postStyleguide req w =
      (Ok (Response.mk 401 (MessageBody "User not authenticated")), w)
    ∧ calls (snd (postStyleguide req w)) = calls w
    ∧ store (snd (postStyleguide req w)) = store w.
Proof.
  intros Store storage req w H.
  rewrite postStyleguide_unfold, H. done.
Qed.

Lemma C5_unauthenticated_post_is_rejected_witness :
  postStyleguide anonymousPost sampleWorld =
    (Ok (Response.mk 401 (MessageBody "User not authenticated")), sampleWorld)
  ∧ calls (snd (postStyleguide anonymousPost sampleWorld)) = []
  ∧ store (snd (postStyleguide anonymousPost sampleWorld)) = MemoryStorage.empty.
Proof.
  exact (C5_unauthenticated_post_is_rejected MemoryStorage.t _ anonymousPost
           sampleWorld eq_refl).
Defined.

Lemma wellFormed_ok (body : Body) : wellFormed (json body).
Proof. by left. Qed.

Lemma wellFormed_failure (code : Z) (m : string) :
  code ∈ [401%Z; 404%Z; 500%Z] → wellFormed (statusJson code (MessageBody m)).
Proof. intros H. right. split; [done | by exists m]. Qed.

(** Membership in a list literal. *)
Ltac in_list :=
  repeat first [apply list_elem_of_here | apply list_elem_of_further].

Create HintDb routes.
#[local] Hint Resolve wellFormed_ok wellFormed_failure : routes.

Ltac route_done :=
  do 2 eexists; split; [reflexivity|];
  split; [auto with routes; apply wellFormed_failure; in_list | cbn; lia].

(** C8. Every route registered by [registerStyleguideRoutes] always ends
    with a response, never with an exception thrown past the handler; the
    response is a success or a 401, 404 or 500 whose body is [{ message }];
    at most one storage call is made, so nothing is retried.  A rejection
    by the storage layer, a request without a body and a message that is
    not a string are each answered 500 with the route's message and logged
    once. *)
Theorem C8_failures_carry_a_message :
  ∀ (Store : Type) (storage : Storage Store) (minimalisticTemplate : Template.t)
    (req : Request.t) (w : World Store),
    (∀ route : Route Store,
       route ∈ registerStyleguideRoutes minimalisticTemplate →
       ∃ resp w',
         handler route req w = (Ok resp, w')
         ∧ wellFormed resp
         ∧ (List.length (calls w') ≤ S (List.length (calls w)))%nat)
    ∧ (∀ e s,
         truthy (claimsSub req) = true →
         createOrUpdateStyleguide (claimsSub req) (Request.body req) (store w)
           = (Throw e, s) →
         ∃ w',
           postStyleguide req w =
             (Ok (Response.mk 500 (MessageBody "Failed to create styleguide")), w')
           ∧ console w' = ("Error creating styleguide:", e) :: console w
           ∧ List.length (calls w') = S (List.length (calls w)))
    ∧ (∀ e s,
         truthy (claimsSub req) = true →
         nullish (Request.body req) = false →
         getOnboardingData (claimsSub req) (store w) = (Throw e, s) →
         ∃ w',
           postStyleguideChat minimalisticTemplate req w =
             (Ok (Response.mk 500 (MessageBody "Failed to process styleguide request")),
              w')
           ∧ console w' = ("Error in SANDRA styleguide chat:", e) :: console w
           ∧ List.length (calls w') = S (List.length (calls w)))
    ∧ (truthy (claimsSub req) = true →
       (nullish (Request.body req) = true
        ∨ ∀ s, optChain (Request.body req) "message" ≠ JStr s) →
       ∃ w',
         postStyleguideChat minimalisticTemplate req w =
           (Ok (Response.mk 500 (MessageBody "Failed to process styleguide request")),
            w')
         ∧ List.length (console w') = S (List.length (console w))).
Proof.
  intros Store storage tpl req w. split; [|split; [|split]].
  - intros route Hin. unfold registerStyleguideRoutes in Hin.
    rewrite !elem_of_cons in Hin.
    destruct Hin as [->|[->|[->|[->|Hin]]]]; cbn [handler].
    + destruct (decide (Request.userId req = "demo123")) as [Hd|Hd].
      * rewrite (getStyleguide_demo req w Hd). route_done.
      * rewrite (getStyleguide_other req w Hd). route_done.
    + rewrite postStyleguide_unfold.
      destruct (truthy (claimsSub req)); [|route_done].
      destruct (createOrUpdateStyleguide _ _ _) as [[v|e] s]; route_done.
    + unfold getStyleguideTemplates, tryCatch, ret. route_done.
    + rewrite postStyleguideChat_unfold.
      destruct (truthy (claimsSub req)); [|route_done].
      destruct (nullish (Request.body req)); [unfold chatFailure; route_done|].
      cbn zeta.
      destruct (getOnboardingData _ _) as [[ob|e] s];
        [|unfold chatFailure; route_done].
      destruct (generate_pure (Store := Store) (chatContext tpl req ob)) as [o Ho].
      rewrite Ho. destruct o; unfold chatFailure; route_done.
    + by apply elem_of_nil in Hin.
  - intros e s Hsub Hthrow. rewrite postStyleguide_unfold, Hsub, Hthrow.
    eexists. split; [reflexivity|]. done.
  - intros e s Hsub Hbody Hthrow.
    rewrite postStyleguideChat_unfold, Hsub, Hbody, Hthrow.
    eexists. split; [reflexivity|]. done.
  - intros Hsub Hbad. rewrite postStyleguideChat_unfold, Hsub.
    destruct (nullish (Request.body req)) eqn:Hbody.
    { eexists. split; [reflexivity|]. done. }
    destruct Hbad as [Hbad|Hbad]; [discriminate|]. cbn zeta.
    destruct (getOnboardingData _ _) as [[ob|e] s].
    + rewrite generate_unfold. cbn [chatContext Context.message].
      rewrite (isCreationRequest_other _ _ Hbad).
      eexists. split; [reflexivity|]. done.
    + eexists. split; [reflexivity|]. done.
Qed.

Lemma C8_failures_carry_a_message_witness :
  (∃ resp w',
     postStyleguideChat sampleTemplate
       (Request.mk "" (signedIn "u1") (JObj [("message", JStr "hello")])) offlineWorld
       = (Ok resp, w')
     ∧ wellFormed resp ∧ (List.length (calls w') ≤ 1)%nat)
  ∧ (∃ w',
       postStyleguide (Request.mk "" (signedIn "u1") (JObj [])) offlineWorld =
         (Ok (Response.mk 500 (MessageBody "Failed to create styleguide")), w')
       ∧ console w' = [("Error creating styleguide:", Rejected (JStr "connection refused"))]
       ∧ List.length (calls w') = 1%nat)
  ∧ (∃ w',
       postStyleguideChat sampleTemplate
         (Request.mk "" (signedIn "u1") (JObj [("message", JStr "hello")])) offlineWorld
         = (Ok (Response.mk 500 (MessageBody "Failed to process styleguide request")), w')
       ∧ console w'
         = [("Error in SANDRA styleguide chat:", Rejected (JStr "connection refused"))]
       ∧ List.length (calls w') = 1%nat)
  ∧ (∃ w',
       postStyleguideChat sampleTemplate
         (Request.mk "" (signedIn "u1") (JObj [("message", JNum 7)])) sampleWorld
         = (Ok (Response.mk 500 (MessageBody "Failed to process styleguide request")), w')
       ∧ List.length (console w') = 1%nat).
Proof.
  split; [|split; [|split]].
  - apply (proj1 (C8_failures_carry_a_message unit _ sampleTemplate
                    (Request.mk "" (signedIn "u1") (JObj [("message", JStr "hello")]))
                    offlineWorld)
             (mkRoute "POST" "/api/styleguide-chat" (postStyleguideChat sampleTemplate))).
    unfold registerStyleguideRoutes. in_list.
  - exact (proj1 (proj2 (C8_failures_carry_a_message unit _ sampleTemplate
                           (Request.mk "" (signedIn "u1") (JObj [])) offlineWorld))
             _ _ eq_refl eq_refl).
  - exact (proj1 (proj2 (proj2 (C8_failures_carry_a_message unit _ sampleTemplate
                           (Request.mk "" (signedIn "u1") (JObj [("message", JStr "hello")]))
                           offlineWorld)))
             _ _ eq_refl eq_refl eq_refl).
  - apply (proj2 (proj2 (proj2 (C8_failures_carry_a_message MemoryStorage.t _ sampleTemplate
                           (Request.mk "" (signedIn "u1") (JObj [("message", JNum 7)]))
                           sampleWorld))) eq_refl).
    right. intros s. discriminate.
Defined.

(** ** The schema *)

Section Constraints.
Import PgCore.

Lemma tableHolds_column (t : Table) (rows : list Row) (key : string) (c : Column) :
  tableHolds t rows = true → (key, c) ∈ columns t → columnHolds rows c = true.
Proof.
  unfold tableHolds. rewrite forallb_forall. intros H Hin.
  apply (H (key, c)). by apply list_elem_of_In.
Qed.

Lemma columnHolds_not_null (rows : list Row) (c : Column) (r : Row) :
  columnHolds rows c = true → rejectsNull c = true → r ∈ rows → is_Some (cell c r).
Proof.
  unfold columnHolds. intros H Hc Hr. rewrite Hc in H.
  apply andb_true_iff in H as [H _]. cbn in H.
  rewrite forallb_forall in H. apply list_elem_of_In, H in Hr.
  by apply bool_decide_eq_true in Hr.
Qed.

Lemma columnHolds_unique (rows : list Row) (c : Column) :
  columnHolds rows c = true → rejectsDuplicates c = true →
  NoDup (omap (cell c) rows).
Proof.
  unfold columnHolds. intros H Hc. rewrite Hc in H.
  apply andb_true_iff in H as [_ H]. by apply bool_decide_eq_true in H.
Qed.

(** Rows that hold the same value of a duplicate-free column are one row. *)
Lemma NoDup_omap_same_index {A B} (f : A → option B) (l : list A)
    (i j : nat) (a b : A) (v : B) :
  NoDup (omap f l) → l !! i = Some a → l !! j = Some b →
  f a = Some v → f b = Some v → i = j.
Proof.
  revert i j. induction l as [|x l IH]; intros i j Hnd Hi Hj Ha Hb; [done|].
  assert (∀ k y, l !! k = Some y → f y = Some v → v ∈ omap f l) as Hmem.
  { intros k y Hk Hy. apply list_elem_of_omap. exists y.
    split; [by eapply list_elem_of_lookup_2 | done]. }
  cbn in Hnd. destruct i as [|i], j as [|j]; cbn in Hi, Hj.
  - done.
  - injection Hi as ->. rewrite Ha in Hnd. apply NoDup_cons in Hnd as [Hnot _].
    destruct Hnot. by eapply Hmem.
  - injection Hj as ->. rewrite Hb in Hnd. apply NoDup_cons in Hnd as [Hnot _].
    destruct Hnot. by eapply Hmem.
  - f_equal. apply IH; try done.
    destruct (f x); [by apply NoDup_cons in Hnd as [_ Hnd] | done].
Qed.

(** At most one row holds a given value of a duplicate-free column. *)
Lemma NoDup_omap_at_most_one {A B} `{EqDecision B} (f : A → option B)
    (l : list A) (v : B) :
  NoDup (omap f l) →
  (List.length (filter (λ a, f a = Some v) l) ≤ 1)%nat.
Proof.
  induction l as [|x l IH]; intros Hnd; [cbn; lia|].
  cbn in Hnd. rewrite filter_cons. case_decide as Hx.
  - rewrite Hx in Hnd. apply NoDup_cons in Hnd as [Hnot _].
    destruct (filter (λ a, f a = Some v) l) as [|y ys] eqn:Hf; [cbn; lia|].
    assert (y ∈ filter (λ a, f a = Some v) l) as Hy by (rewrite Hf; left).
    apply list_elem_of_filter in Hy as [Hfy Hy]. destruct Hnot.
    apply list_elem_of_omap. by exists y.
  - apply IH. destruct (f x); [by apply NoDup_cons in Hnd as [_ Hnd] | done].
Qed.

Lemma unique_not_null_column (t : Table) (rows : list Row) (key : string)
    (c : Column) (i j : nat) (r1 r2 : Row) :
  tableHolds t rows = true → (key, c) ∈ columns t →
  rejectsDuplicates c = true → rejectsNull c = true →
  rows !! i = Some r1 → rows !! j = Some r2 → cell c r1 = cell c r2 → i = j.
Proof.
  intros Ht Hin Hu Hn Hi Hj Heq.
  pose proof (tableHolds_column _ _ _ _ Ht Hin) as Hc.
  destruct (columnHolds_not_null rows c r1 Hc Hn) as [v Hv];
    [by eapply list_elem_of_lookup_2|].
  eapply (NoDup_omap_same_index (cell c)); eauto using columnHolds_unique.
  by rewrite <- Heq.
Qed.
End Constraints.

(** [NULL] subdomains may repeat: the unique constraint on a nullable
    column only compares the values that are there. *)
Example domains_without_subdomain_coexist :
  PgCore.tableHolds Schema.domains sampleDomains = true
  ∧ Forall (λ r : PgCore.Row, r !! "subdomain" = None) sampleDomains.
Proof. split; [by vm_compute | by repeat constructor]. Qed.

(** C9. In every state of [user_models] and [domains] that satisfies the
    declared constraints: two rows of [user_models] with the same
    [user_id] are the same row, so a user has at most one model; every
    model has a trigger word and no two models share one; every domain row
    has a domain string and no two rows share one; and no two domain rows
    share a subdomain string. *)
Theorem C9_schema_uniqueness :
  ∀ models domainRows : list PgCore.Row,
    PgCore.tableHolds Schema.userModels models = true →
    PgCore.tableHolds Schema.domains domainRows = true →
    (∀ i j r1 r2,
       models !! i = Some r1 → models !! j = Some r2 →
       r1 !! "user_id" = r2 !! "user_id" → i = j)
    ∧ (∀ user : SqlValue,
         (List.length (filter (λ r : PgCore.Row, r !! "user_id" = Some user) models)
          ≤ 1)%nat)
    ∧ (∀ r, r ∈ models → is_Some (r !! "trigger_word"))
    ∧ (∀ i j r1 r2,
         models !! i = Some r1 → models !! j = Some r2 →
         r1 !! "trigger_word" = r2 !! "trigger_word" → i = j)
    ∧ (∀ i j r1 r2,
         domainRows !! i = Some r1 → domainRows !! j = Some r2 →
         r1 !! "domain" = r2 !! "domain" → i = j)
    ∧ (∀ i j r1 r2 s,
         domainRows !! i = Some r1 → domainRows !! j = Some r2 →
         r1 !! "subdomain" = Some s → r2 !! "subdomain" = Some s → i = j).
Proof.
  intros models domainRows Hm Hd.
  set (userId := PgCore.varchar "user_id" |> PgCore.references Schema.users "id"
                 |> PgCore.notNull |> PgCore.unique).
  set (triggerWord := PgCore.varchar "trigger_word" |> PgCore.notNull |> PgCore.unique).
  set (domain := PgCore.varchar "domain" |> PgCore.notNull |> PgCore.unique).
  set (subdomain := PgCore.varchar "subdomain" |> PgCore.unique).
  assert (("userId", userId) ∈ PgCore.columns Schema.userModels) as HuserId
    by (cbn; in_list).
  assert (("triggerWord", triggerWord) ∈ PgCore.columns Schema.userModels) as Htrigger
    by (cbn; in_list).
  assert (("domain", domain) ∈ PgCore.columns Schema.domains) as Hdomain
    by (cbn; in_list).
  assert (("subdomain", subdomain) ∈ PgCore.columns Schema.domains) as Hsub
    by (cbn; in_list).
  repeat split.
  - intros i j r1 r2. by apply (unique_not_null_column _ _ _ userId _ _ _ _ Hm HuserId).
  - intros user.
    apply (NoDup_omap_at_most_one (PgCore.cell userId)).
    eapply columnHolds_unique; [by eapply tableHolds_column | done].
  - intros r Hr.
    eapply (columnHolds_not_null models triggerWord); [|done|done].
    by eapply tableHolds_column.
  - intros i j r1 r2. by apply (unique_not_null_column _ _ _ triggerWord _ _ _ _ Hm Htrigger).
  - intros i j r1 r2. by apply (unique_not_null_column _ _ _ domain _ _ _ _ Hd Hdomain).
  - intros i j r1 r2 s Hi Hj H1 H2.
    eapply (NoDup_omap_same_index (PgCore.cell subdomain)); eauto.
    eapply columnHolds_unique; [by eapply tableHolds_column | done].
Qed.

Lemma C9_schema_uniqueness_witness :
  PgCore.tableHolds Schema.userModels sampleModels = true
  ∧ PgCore.tableHolds Schema.domains sampleDomains = true
  ∧ (List.length
       (filter (λ r : PgCore.Row, r !! "user_id" = Some (SqlText "u1")) sampleModels)
     ≤ 1)%nat
  ∧ (∀ r, r ∈ sampleModels → is_Some (r !! "trigger_word")).
Proof.
  assert (PgCore.tableHolds Schema.userModels sampleModels = true) as Hm
    by (vm_compute; reflexivity).
  assert (PgCore.tableHolds Schema.domains sampleDomains = true) as Hd
    by (vm_compute; reflexivity).
  destruct (C9_schema_uniqueness sampleModels sampleDomains Hm Hd)
    as (_ & Hone & Htw & _).
  split; [exact Hm|]. split; [exact Hd|]. split; [apply Hone | apply Htw].
Defined.


(** * Further properties *)

(** ** Strings *)

Lemma append_cons (x : ascii) (a b : string) :
  String x a +:+ b = String x (a +:+ b).
Proof. reflexivity. Qed.

Lemma append_assoc (a b c : string) : (a +:+ b) +:+ c = a +:+ (b +:+ c).
Proof.
  induction a as [|x a IH]; [done|]. by rewrite !append_cons, IH.
Qed.

Lemma toLowerCase_app (a b : string) :
  toLowerCase (a +:+ b) = toLowerCase a +:+ toLowerCase b.
Proof.
  induction a as [|x a IH]; [done|].
  rewrite append_cons. cbn [toLowerCase]. by rewrite append_cons, IH.
Qed.

Lemma Substring_extend (pat pre s post : string) :
  Substring pat s → Substring pat (pre +:+ s +:+ post).
Proof.
  intros (a & b & ->). exists (pre +:+ a), (b +:+ post).
  by rewrite !append_assoc.
Qed.

Lemma mentionsKeyword_extend (pre s post : string) :
  mentionsKeyword s → mentionsKeyword (pre +:+ s +:+ post).
Proof.
  unfold mentionsKeyword. rewrite !toLowerCase_app.
  intros [H|[H|H]]; eauto using Substring_extend.
Qed.

Lemma isCreationRequest_true_iff {Store} (s : string) (w : World Store) :
  isCreationRequest (JStr s) w = (Ok true, w) ↔ mentionsKeyword s.
Proof.
  rewrite isCreationRequest_string, <- keyword_reflect.
  split; [by intros [= ->] | by intros ->].
Qed.

Lemma isCreationRequest_false_iff {Store} (s : string) (w : World Store) :
  isCreationRequest (JStr s) w = (Ok false, w) ↔ ¬ mentionsKeyword s.
Proof.
  rewrite isCreationRequest_string, <- keyword_reflect.
  destruct (_ || _ || _); split; try done; intros H; by destruct H.
Qed.

(** ** The classifier and the responder *)

(** X1. Classification is by substring, so it survives any text put around
    a message: a message that contains a creation request is one. *)
Theorem creation_request_survives_context :
  ∀ (Store : Type) (w : World Store) (pre s post : string),
    isCreationRequest (JStr s) w = (Ok true, w) →
    isCreationRequest (JStr (pre +:+ s +:+ post)) w = (Ok true, w).
Proof.
  intros Store w pre s post. rewrite !isCreationRequest_true_iff.
  apply mentionsKeyword_extend.
Qed.

Lemma creation_request_survives_context_witness :
  isCreationRequest (JStr "What is the latest news today?") sampleWorld
  = (Ok true, sampleWorld).
Proof.
  exact (creation_request_survives_context MemoryStorage.t sampleWorld
           "What is the latest " "new" "s today?" eq_refl).
Defined.

Lemma caseTwin_lowerChar (a b : ascii) :
  caseTwin a b = true → lowerChar a = lowerChar b.
Proof.
  assert (∀ c, isUpperLatin c = true →
               lowerChar c = ascii_of_N (N_of_ascii c + 32)
               ∧ lowerChar (ascii_of_N (N_of_ascii c + 32))
                 = ascii_of_N (N_of_ascii c + 32)) as Hup.
  { intros c. destruct c as [[] [] [] [] [] [] [] []];
      intros H; try discriminate H; by split. }
  unfold caseTwin. rewrite !orb_true_iff, !andb_true_iff.
  intros [[Heq | [Hu Heq]] | [Hu Heq]]; apply Ascii.eqb_eq in Heq; subst.
  - done.
  - destruct (Hup a Hu) as [-> ->]. done.
  - destruct (Hup b Hu) as [-> ->]. done.
Qed.

Lemma sameUpToLatinCase_toLowerCase (s1 s2 : string) :
  sameUpToLatinCase s1 s2 = true → toLowerCase s1 = toLowerCase s2.
Proof.
  revert s2. induction s1 as [|a s1 IH]; intros [|b s2] H; try done.
  cbn in H. apply andb_true_iff in H as [Hab H]. cbn.
  by rewrite (caseTwin_lowerChar a b Hab), (IH s2 H).
Qed.

Lemma isContinuationByte_lowerChar (c : ascii) :
  isContinuationByte (lowerChar c) = isContinuationByte c.
Proof. destruct c as [[] [] [] [] [] [] [] []]; reflexivity. Qed.

Lemma codePoints_toLowerCase (s : string) :
  codePoints (toLowerCase s) = codePoints s.
Proof.
  induction s as [|c s IH]; [done|]. cbn.
  by rewrite isContinuationByte_lowerChar, IH.
Qed.

Lemma codePoints_append (a b : string) :
  codePoints (a +:+ b) = (codePoints a + codePoints b)%nat.
Proof.
  induction a as [|x a IH]; [done|]. rewrite append_cons. cbn.
  rewrite IH. lia.
Qed.

Lemma mentionsKeyword_codePoints (s : string) :
  mentionsKeyword s → (3 ≤ codePoints s)%nat.
Proof.
  intros [H|[H|H]]; destruct H as (a & b & H);
    apply (f_equal codePoints) in H;
    rewrite codePoints_toLowerCase, !codePoints_append in H;
    [change (codePoints "create") with 6%nat in H
    |change (codePoints "new") with 3%nat in H
    |change (codePoints "generate") with 8%nat in H]; lia.
Qed.

(** X2. The responder does not see the case of Basic Latin letters: two
    messages that differ only in that, byte for byte, have the same
    outcome. *)
Theorem responder_ignores_letter_case :
  ∀ (Store : Type) (w : World Store) (s1 s2 : string)
    (userId onboardingData currentStyleguide : JsValue)
    (availableTemplates : list Template.t),
    sameUpToLatinCase s1 s2 = true →
    generateSandraStyleguideResponse
      (Context.mk (JStr s1) userId onboardingData currentStyleguide
                  availableTemplates) w
    = generateSandraStyleguideResponse
        (Context.mk (JStr s2) userId onboardingData currentStyleguide
                    availableTemplates) w.
Proof.
  intros Store w s1 s2 userId ob cs ts Hsame.
  rewrite !generate_unfold. cbn [Context.message].
  by rewrite !isCreationRequest_string, (sameUpToLatinCase_toLowerCase s1 s2 Hsame).
Qed.

Lemma responder_ignores_letter_case_witness :
  generateSandraStyleguideResponse
    (Context.mk (JStr "Generate My STYLEGUIDE") (JStr "u1") JNull JNull [sampleTemplate])
    sampleWorld
  = generateSandraStyleguideResponse
      (Context.mk (JStr "generate my styleguide") (JStr "u1") JNull JNull [sampleTemplate])
      sampleWorld.
Proof.
  exact (responder_ignores_letter_case MemoryStorage.t sampleWorld
           "Generate My STYLEGUIDE" "generate my styleguide"
           (JStr "u1") JNull JNull [sampleTemplate] eq_refl).
Defined.

(** X3. A message of fewer than three characters, the empty message
    included, is never a creation request, whatever the characters are: it
    is answered with the conversation response whatever the templates, even
    with none. *)
Theorem short_message_is_conversation :
  ∀ (Store : Type) (w : World Store) (s : string)
    (userId onboardingData currentStyleguide : JsValue)
    (availableTemplates : list Template.t),
    (codePoints s < 3)%nat →
    isCreationRequest (JStr s) w = (Ok false, w)
    ∧ ∃ r,
        generateSandraStyleguideResponse
          (Context.mk (JStr s) userId onboardingData currentStyleguide
                      availableTemplates) w = (Ok r, w)
        ∧ ChatResponse.type r = "conversation".
Proof.
  intros Store w s userId ob cs ts Hlen.
  assert (isCreationRequest (JStr s) w = (Ok false, w)) as Hfalse.
  { apply isCreationRequest_false_iff. intros H%mentionsKeyword_codePoints. lia. }
  split; [done|]. rewrite generate_unfold. cbn [Context.message].
  rewrite Hfalse. by eexists.
Qed.

Lemma short_message_is_conversation_witness :
  (isCreationRequest (JStr "") sampleWorld = (Ok false, sampleWorld)
   ∧ ∃ r,
       generateSandraStyleguideResponse
         (Context.mk (JStr "") (JStr "u1") JNull JNull []) sampleWorld
         = (Ok r, sampleWorld)
       ∧ ChatResponse.type r = "conversation")
  ∧ (isCreationRequest (JStr "éé") sampleWorld = (Ok false, sampleWorld)
     ∧ ∃ r,
         generateSandraStyleguideResponse
           (Context.mk (JStr "éé") (JStr "u1") JNull JNull []) sampleWorld
           = (Ok r, sampleWorld)
         ∧ ChatResponse.type r = "conversation").
Proof.
  split.
  - apply (short_message_is_conversation MemoryStorage.t sampleWorld ""
             (JStr "u1") JNull JNull []).
    vm_compute. lia.
  - apply (short_message_is_conversation MemoryStorage.t sampleWorld "éé"
             (JStr "u1") JNull JNull []).
    vm_compute. lia.
Defined.

(** X4. With no template available the responder answers exactly the
    messages that are not creation requests: a creation request throws a
    [TypeError] (there is no [availableTemplates[0]] to read), any other
    string gets the conversation response. *)
Theorem no_template_no_creation :
  ∀ (Store : Type) (w : World Store) (s : string)
    (userId onboardingData currentStyleguide : JsValue),
    (mentionsKeyword s →
       generateSandraStyleguideResponse
         (Context.mk (JStr s) userId onboardingData currentStyleguide []) w
       = (Throw TypeError, w))
    ∧ (¬ mentionsKeyword s →
         ∃ r,
           generateSandraStyleguideResponse
             (Context.mk (JStr s) userId onboardingData currentStyleguide []) w
           = (Ok r, w)
           ∧ ChatResponse.type r = "conversation").
Proof.
  intros Store w s userId ob cs. split; intros H; rewrite generate_unfold;
    cbn [Context.message Context.availableTemplates].
  - apply (isCreationRequest_true_iff s w) in H. by rewrite H.
  - apply (isCreationRequest_false_iff s w) in H. rewrite H. by eexists.
Qed.

Lemma no_template_no_creation_witness :
  generateSandraStyleguideResponse
    (Context.mk (JStr "create my styleguide") (JStr "u1") JNull JNull []) sampleWorld
  = (Throw TypeError, sampleWorld)
  ∧ ∃ r,
      generateSandraStyleguideResponse
        (Context.mk (JStr "show me templates") (JStr "u1") JNull JNull []) sampleWorld
      = (Ok r, sampleWorld)
      ∧ ChatResponse.type r = "conversation".
Proof.
  split.
  - apply (proj1 (no_template_no_creation MemoryStorage.t sampleWorld
                    "create my styleguide" (JStr "u1") JNull JNull)).
    apply keyword_reflect. reflexivity.
  - apply (proj2 (no_template_no_creation MemoryStorage.t sampleWorld
                    "show me templates" (JStr "u1") JNull JNull)).
    intros H. apply keyword_reflect in H. discriminate H.
Defined.


Lemma lookupField_absent (k : string) (fields : list (string * JsValue)) :
  k ∉ fields.*1 → lookupField k fields = JUndefined.
Proof.
  induction fields as [|[k' v] fields IH]; intros Hk; [done|].
  cbn in Hk |- *. apply not_elem_of_cons in Hk as [Hne Hk].
  destruct (String.eqb_spec k k'); [done | by apply IH].
Qed.

(** The outcomes of the responder, by cases. *)
Lemma generate_outcome {Store} (context : Context.t) (w : World Store)
    (r : ChatResponse.t) :
  fst (generateSandraStyleguideResponse context w) = Ok r →
  (∃ template templates,
     Context.availableTemplates context = template :: templates
     ∧ r = {|
         ChatResponse.type := "styleguide_created";
         ChatResponse.message := createdMessage template;
         ChatResponse.styleguideData := Some {|
           StyleguideData.templateId := Template.id template;
           StyleguideData.templateName := Template.name template;
           StyleguideData.colors := Template.colors template;
           StyleguideData.typography := Template.typography template;
           StyleguideData.voiceProfile := Template.voiceProfile template;
           StyleguideData.visualElements := Template.visualElements template;
           StyleguideData.personalMission :=
             jsOr (optChain (Context.onboardingData context) "personalMission")
                  (JStr "Your unique mission and vision");
           StyleguideData.brandVoice :=
             jsOr (optChain (Context.onboardingData context) "brandVoice")
                  (JStr "Professional and authentic");
           StyleguideData.targetAudience :=
             jsOr (optChain (Context.onboardingData context) "targetAudience")
                  (JStr "Your ideal clients")
         |};
         ChatResponse.templateApplied := Some (Template.id template);
         ChatResponse.suggestions := None
       |})
  ∨ r = {|
      ChatResponse.type := "conversation";
      ChatResponse.message := conversationMessage;
      ChatResponse.styleguideData := None;
      ChatResponse.templateApplied := None;
      ChatResponse.suggestions :=
        Some ["Create my styleguide"; "Show me templates";
              "What information do you need?"]
    |}.
Proof.
  rewrite generate_unfold.
  destruct (isCreationRequest (Context.message context) w) as [[[|]|e] w'];
    [|cbn; intros [= <-]; by right|done].
  destruct (Context.availableTemplates context) as [|t ts]; [done|].
  cbn. intros [= <-]. left. by exists t, ts.
Qed.



(** X6. A response has one of two shapes.  Either its type is
    "styleguide_created" and it has [styleguideData] and [templateApplied],
    both naming the first available template, and no [suggestions]; or its
    type is "conversation" and it has three [suggestions] and neither
    [styleguideData] nor [templateApplied]. *)
Theorem response_has_one_of_two_shapes :
  ∀ (Store : Type) (w : World Store) (context : Context.t) (r : ChatResponse.t),
    fst (generateSandraStyleguideResponse context w) = Ok r →
    (ChatResponse.type r = "styleguide_created"
     ∧ ChatResponse.suggestions r = None
     ∧ ∃ d template,
         Context.availableTemplates context !! 0%nat = Some template
         ∧ ChatResponse.styleguideData r = Some d
         ∧ StyleguideData.templateId d = Template.id template
         ∧ StyleguideData.templateName d = Template.name template
         ∧ ChatResponse.templateApplied r = Some (StyleguideData.templateId d))
    ∨ (ChatResponse.type r = "conversation"
       ∧ ChatResponse.styleguideData r = None
       ∧ ChatResponse.templateApplied r = None
       ∧ ∃ l, ChatResponse.suggestions r = Some l ∧ List.length l = 3%nat).
Proof.
  intros Store w context r Hrun.
  destruct (generate_outcome context w r Hrun) as [(t & ts & Hts & ->) | ->].
  - left. cbn. repeat split. eexists _, t. rewrite Hts. by repeat split.
  - right. cbn. repeat split. by eexists.
Qed.

Lemma response_has_one_of_two_shapes_witness :
  ∃ r,
    fst (generateSandraStyleguideResponse
           (Context.mk (JStr "anything new?") (JStr "u1") JNull JNull [sampleTemplate])
           sampleWorld) = Ok r
    ∧ (ChatResponse.type r = "styleguide_created"
       ∨ ChatResponse.type r = "conversation").
Proof.
  eexists. split; [reflexivity|].
  destruct (response_has_one_of_two_shapes MemoryStorage.t sampleWorld
              (Context.mk (JStr "anything new?") (JStr "u1") JNull JNull
                          [sampleTemplate]) _ eq_refl)
    as [[H _] | [H _]]; [by left | by right].
Defined.

(** X7. The onboarding table declares no [personalMission], [brandVoice] or
    [targetAudience] property.  So when the onboarding data is an object
    with only properties of that table, as a row selected from it is, a
    created styleguide carries the three placeholders whatever the row
    holds. *)
Theorem schema_shaped_onboarding_gets_placeholders :
  ∀ (Store : Type) (w : World Store) (context : Context.t)
    (fields : list (string * JsValue)) (r : ChatResponse.t) (d : StyleguideData.t),
    Context.onboardingData context = JObj fields →
    fields.*1 ⊆ (PgCore.columns Schema.onboardingData).*1 →
    fst (generateSandraStyleguideResponse context w) = Ok r →
    ChatResponse.styleguideData r = Some d →
    StyleguideData.personalMission d = JStr "Your unique mission and vision"
    ∧ StyleguideData.brandVoice d = JStr "Professional and authentic"
    ∧ StyleguideData.targetAudience d = JStr "Your ideal clients".
Proof.
  intros Store w context fields r d Hob Hkeys Hrun Hd.
  destruct (generate_outcome context w r Hrun) as [(t & ts & _ & ->) | ->];
    [|discriminate Hd].
  cbn in Hd. injection Hd as <-. cbn. rewrite Hob. cbn [optChain].
  assert (∀ k, k ∉ (PgCore.columns Schema.onboardingData).*1 →
               lookupField k fields = JUndefined) as Habsent.
  { intros k Hk. apply lookupField_absent. intros Hin. by apply Hk, Hkeys. }
  rewrite !Habsent; [done| | |];
    (intros Hin; cbn in Hin;
     repeat (apply elem_of_cons in Hin as [Hin|Hin]; [discriminate Hin|]);
     by apply elem_of_nil in Hin).
Qed.

Lemma schema_shaped_onboarding_gets_placeholders_witness :
  ∃ r d,
    fst (generateSandraStyleguideResponse
           (Context.mk (JStr "create") (JStr "u1")
              (JObj [("brandVibe", JStr "bold"); ("brandStory", JStr "From zero");
                     ("targetClient", JStr "Founders")])
              JNull [sampleTemplate]) sampleWorld) = Ok r
    ∧ ChatResponse.styleguideData r = Some d
    ∧ StyleguideData.personalMission d = JStr "Your unique mission and vision"
    ∧ StyleguideData.brandVoice d = JStr "Professional and authentic"
    ∧ StyleguideData.targetAudience d = JStr "Your ideal clients".
Proof.
  eexists _, _. split; [reflexivity|]. split; [reflexivity|].
  eapply (schema_shaped_onboarding_gets_placeholders MemoryStorage.t sampleWorld
           (Context.mk (JStr "create") (JStr "u1")
              (JObj [("brandVibe", JStr "bold"); ("brandStory", JStr "From zero");
                     ("targetClient", JStr "Founders")])
              JNull [sampleTemplate])
           [("brandVibe", JStr "bold"); ("brandStory", JStr "From zero");
            ("targetClient", JStr "Founders")]);
    [reflexivity| |reflexivity|reflexivity].
  intros k Hk. cbn in Hk.
  repeat (apply elem_of_cons in Hk as [->|Hk]; [cbn; in_list|]).
  by apply elem_of_nil in Hk.
Defined.

(** ** The routes, continued *)

(** X8. [POST /api/styleguide-chat] without a caller identity answers 401
    with a message body before it looks at the body or at the storage: the
    world is left as it was. *)
Theorem unauthenticated_chat_is_rejected :
  ∀ (Store : Type) (storage : Storage Store) (minimalisticTemplate : Template.t)
    (req : Request.t) (w : World Store),
    truthy (claimsSub req) = false →
    postStyleguideChat minimalisticTemplate req w =
      (Ok (Response.mk 401 (MessageBody "User not authenticated")), w).
Proof.
  intros Store storage tpl req w H.
  by rewrite postStyleguideChat_unfold, H.
Qed.

Lemma unauthenticated_chat_is_rejected_witness :
  postStyleguideChat sampleTemplate
    (Request.mk "" (JObj [("claims", JObj [("sub", JStr "")])]) JUndefined) offlineWorld
  = (Ok (Response.mk 401 (MessageBody "User not authenticated")), offlineWorld).
Proof.
  exact (unauthenticated_chat_is_rejected unit _ sampleTemplate
           (Request.mk "" (JObj [("claims", JObj [("sub", JStr "")])]) JUndefined)
           offlineWorld eq_refl).
Defined.

(** X9. What each route asks of the storage.  The two [GET] routes ask
    nothing and leave what is stored alone.  [POST /api/styleguide] of an
    identified caller calls [createOrUpdateStyleguide] once, with the
    caller's id and the request body as they came.  The chat route of an
    identified caller with a body calls [getOnboardingData] once with the
    caller's id, and never [createOrUpdateStyleguide]: what is stored
    afterwards is what that lookup left. *)
Theorem storage_calls_of_each_route :
  ∀ (Store : Type) (storage : Storage Store) (minimalisticTemplate : Template.t)
    (req : Request.t) (w : World Store),
    (calls (snd (getStyleguide req w)) = calls w
     ∧ store (snd (getStyleguide req w)) = store w)
    ∧ snd (getStyleguideTemplates minimalisticTemplate req w) = w
    ∧ (calls (snd (postStyleguide req w)) =
         ((if truthy (claimsSub req)
           then [CallCreateOrUpdateStyleguide (claimsSub req) (Request.body req)]
           else []) ++ calls w)%list
       ∧ store (snd (postStyleguide req w)) =
           if truthy (claimsSub req)
           then snd (createOrUpdateStyleguide (claimsSub req) (Request.body req) (store w))
           else store w)
    ∧ (calls (snd (postStyleguideChat minimalisticTemplate req w)) =
         ((if truthy (claimsSub req) && negb (nullish (Request.body req))
           then [CallGetOnboardingData (claimsSub req)]
           else []) ++ calls w)%list
       ∧ store (snd (postStyleguideChat minimalisticTemplate req w)) =
           if truthy (claimsSub req) && negb (nullish (Request.body req))
           then snd (getOnboardingData (claimsSub req) (store w))
           else store w).
Proof.
  intros Store storage tpl req w. split; [|split; [|split]].
  - destruct (decide (Request.userId req = "demo123")) as [Hd|Hd].
    + by rewrite (getStyleguide_demo req w Hd).
    + by rewrite (getStyleguide_other req w Hd).
  - done.
  - rewrite postStyleguide_unfold.
    destruct (truthy (claimsSub req)); [|done].
    by destruct (createOrUpdateStyleguide _ _ _) as [[v|e] s].
  - rewrite postStyleguideChat_unfold.
    destruct (truthy (claimsSub req)); [|done].
    destruct (nullish (Request.body req)); [done|]. cbn zeta.
    destruct (getOnboardingData _ _) as [[ob|e] s]; [|done].
    destruct (generate_pure (Store := Store) (chatContext tpl req ob)) as [o Ho].
    rewrite Ho. by destruct o.
Qed.

(** A [claims] that is a string passes the identity check of both [POST]
    routes: [sub] of a string is the inherited method, which is truthy, and
    the storage is called with it. *)
Example string_claims_pass_the_identity_check :
  ∀ (claims : string) (body : JsValue),
    claimsSub (Request.mk "" (JObj [("claims", JStr claims)]) body)
      = JFun "String.prototype.sub"
    ∧ calls (snd (postStyleguide
                    (Request.mk "" (JObj [("claims", JStr claims)]) body)
                    offlineWorld))
      = [CallCreateOrUpdateStyleguide (JFun "String.prototype.sub") body].
Proof. intros claims body. split; reflexivity. Qed.

(** X10. A route writes to the console exactly when it answers 500: a 500
    comes with one new [console.error] line, and every other answer leaves
    the console as it was. *)
Theorem console_line_iff_500 :
  ∀ (Store : Type) (storage : Storage Store) (minimalisticTemplate : Template.t)
    (req : Request.t) (w : World Store) (route : Route Store),
    route ∈ registerStyleguideRoutes minimalisticTemplate →
    ∃ resp w',
      handler route req w = (Ok resp, w')
      ∧ ((Response.status resp = 500%Z ∧ ∃ line, console w' = line :: console w)
         ∨ (Response.status resp ≠ 500%Z ∧ console w' = console w)).
Proof.
  intros Store storage tpl req w route Hin.
  unfold registerStyleguideRoutes in Hin. rewrite !elem_of_cons in Hin.
  destruct Hin as [->|[->|[->|[->|Hin]]]]; cbn [handler].
  - destruct (decide (Request.userId req = "demo123")) as [Hd|Hd].
    + rewrite (getStyleguide_demo req w Hd). eexists _, _. split; [done|]. by right.
    + rewrite (getStyleguide_other req w Hd). eexists _, _. split; [done|]. by right.
  - rewrite postStyleguide_unfold.
    destruct (truthy (claimsSub req)); [|eexists _, _; split; [done|]; by right].
    destruct (createOrUpdateStyleguide _ _ _) as [[v|e] s];
      eexists _, _; (split; [done|]); [by right | left; split; [done | by eexists]].
  - eexists _, _. split; [done|]. by right.
  - rewrite postStyleguideChat_unfold.
    destruct (truthy (claimsSub req)); [|eexists _, _; split; [done|]; by right].
    destruct (nullish (Request.body req));
      [eexists _, _; split; [done|]; left; split; [done | by eexists]|].
    cbn zeta.
    destruct (getOnboardingData _ _) as [[ob|e] s];
      [|eexists _, _; split; [done|]; left; split; [done | by eexists]].
    destruct (generate_pure (Store := Store) (chatContext tpl req ob)) as [o Ho].
    rewrite Ho. destruct o; eexists _, _; (split; [done|]);
      [by right | left; split; [done | by eexists]].
  - by apply elem_of_nil in Hin.
Qed.

Lemma console_line_iff_500_witness :
  ∃ resp w',
    postStyleguide (Request.mk "" (signedIn "u1") (JObj [])) offlineWorld = (Ok resp, w')
    ∧ ((Response.status resp = 500%Z ∧ ∃ line, console w' = line :: [])
       ∨ (Response.status resp ≠ 500%Z ∧ console w' = [])).
Proof.
  apply (console_line_iff_500 unit _ sampleTemplate
           (Request.mk "" (signedIn "u1") (JObj [])) offlineWorld
           (mkRoute "POST" "/api/styleguide" postStyleguide)).
  unfold registerStyleguideRoutes. in_list.
Defined.

(** X11. The chat route end to end.  For an identified caller whose body
    carries a string message, once the onboarding lookup resolves the
    answer is always a 200 with a chat response: "styleguide_created",
    applying the imported template, exactly when the message mentions a
    keyword, and "conversation" otherwise.  The route always brings a
    template, so the missing-template error cannot happen here. *)
Theorem chat_route_answers_by_keyword :
  ∀ (Store : Type) (storage : Storage Store) (minimalisticTemplate : Template.t)
    (req : Request.t) (w : World Store) (s : string)
    (onboardingData : JsValue) (st : Store),
    truthy (claimsSub req) = true →
    optChain (Request.body req) "message" = JStr s →
    getOnboardingData (claimsSub req) (store w) = (Ok onboardingData, st) →
    ∃ r,
      fst (postStyleguideChat minimalisticTemplate req w) = Ok (json (ChatBody r))
      ∧ (ChatResponse.type r = "styleguide_created" ↔ mentionsKeyword s)
      ∧ (ChatResponse.type r = "conversation" ↔ ¬ mentionsKeyword s)
      ∧ (mentionsKeyword s →
           ChatResponse.templateApplied r = Some (Template.id minimalisticTemplate)).
Proof.
  intros Store storage tpl req w s ob st Hsub Hmsg Hget.
  assert (nullish (Request.body req) = false) as Hbody
    by (destruct (Request.body req); try done; discriminate Hmsg).
  rewrite postStyleguideChat_unfold, Hsub, Hbody, Hget. cbn zeta.
  rewrite generate_unfold.
  cbn [chatContext Context.message Context.availableTemplates].
  rewrite Hmsg, isCreationRequest_string.
  pose proof (keyword_reflect s) as Hk.
  destruct (_ || _ || _); eexists; (split; [reflexivity|]); cbn.
  - assert (mentionsKeyword s) as Hyes by (by apply Hk).
    repeat split; first [done | intros H; by destruct H].
  - assert (¬ mentionsKeyword s) as Hno by (intros H; by apply Hk in H).
    repeat split; first [done | intros H; by destruct H].
Qed.

Lemma chat_route_answers_by_keyword_witness :
  ∃ r,
    fst (postStyleguideChat sampleTemplate
           (Request.mk "" (signedIn "u1")
              (JObj [("message", JStr "Show me something NEW")])) sampleWorld)
    = Ok (json (ChatBody r))
    ∧ ChatResponse.templateApplied r = Some "minimalistic".
Proof.
  destruct (chat_route_answers_by_keyword MemoryStorage.t MemoryStorage.storage
              sampleTemplate
              (Request.mk "" (signedIn "u1")
                 (JObj [("message", JStr "Show me something NEW")])) sampleWorld
              "Show me something NEW" JUndefined MemoryStorage.empty
              eq_refl eq_refl eq_refl) as (r & Hrun & _ & _ & Happlied).
  exists r. split; [exact Hrun|]. apply Happlied, keyword_reflect. reflexivity.
Defined.

(** X12. Of a request the chat route reads the caller's claims, whether
    there is a body, and the body's [message], nothing else: two requests
    that agree on these get the same answer and have the same effects,
    whatever their path parameter, their [currentStyleguide] and the other
    properties of their bodies. *)
Theorem chat_route_reads_only_the_message :
  ∀ (Store : Type) (storage : Storage Store) (minimalisticTemplate : Template.t)
    (req1 req2 : Request.t) (w : World Store),
    Request.user req1 = Request.user req2 →
    nullish (Request.body req1) = nullish (Request.body req2) →
    optChain (Request.body req1) "message" = optChain (Request.body req2) "message" →
    postStyleguideChat minimalisticTemplate req1 w
    = postStyleguideChat minimalisticTemplate req2 w.
Proof.
  intros Store storage tpl req1 req2 w Huser Hbody Hmsg.
  rewrite !postStyleguideChat_unfold.
  unfold claimsSub. rewrite Huser, Hbody.
  destruct (truthy _); [|done].
  destruct (nullish (Request.body req2)); [done|]. cbn zeta.
  destruct (getOnboardingData _ _) as [[ob|e] s]; [|done].
  rewrite !generate_unfold.
  cbn [chatContext Context.message Context.availableTemplates Context.onboardingData].
  by rewrite Hmsg.
Qed.

Lemma chat_route_reads_only_the_message_witness :
  postStyleguideChat sampleTemplate
    (Request.mk "demo123" (signedIn "u1")
       (JObj [("message", JStr "create"); ("currentStyleguide", JObj [("title", JStr "A")])]))
    sampleWorld
  = postStyleguideChat sampleTemplate
      (Request.mk "" (signedIn "u1")
         (JObj [("draft", JBool true); ("message", JStr "create")]))
      sampleWorld.
Proof.
  exact (chat_route_reads_only_the_message MemoryStorage.t _ sampleTemplate
           (Request.mk "demo123" (signedIn "u1")
              (JObj [("message", JStr "create");
                     ("currentStyleguide", JObj [("title", JStr "A")])]))
           (Request.mk "" (signedIn "u1")
              (JObj [("draft", JBool true); ("message", JStr "create")]))
           sampleWorld eq_refl eq_refl eq_refl).
Defined.

(** ** The schema, continued *)

Section Keys.
Import PgCore.

Lemma primaryKey_rejects (c : Column) :
  isPrimaryKey c = true → rejectsDuplicates c = true ∧ rejectsNull c = true.
Proof.
  unfold rejectsDuplicates, rejectsNull. intros ->.
  by rewrite !orb_true_r.
Qed.

(** A primary key column gives every row a value, and the value names the
    row. *)
Lemma primaryKey_identifies (t : Table) (key : string) (c : Column)
    (rows : list Row) :
  (key, c) ∈ columns t → isPrimaryKey c = true → tableHolds t rows = true →
  (∀ r, r ∈ rows → is_Some (cell c r))
  ∧ (∀ i j r1 r2,
       rows !! i = Some r1 → rows !! j = Some r2 → cell c r1 = cell c r2 → i = j).
Proof.
  intros Hin [Hu Hn]%primaryKey_rejects Hrows. split.
  - intros r Hr. eapply columnHolds_not_null; [by eapply tableHolds_column|done|done].
  - intros i j r1 r2. by apply (unique_not_null_column t rows key c).
Qed.
End Keys.

(** X13. A user has at most one brandbook and at most one dashboard: in
    every state the declarations allow, two rows of [brandbooks] (or of
    [dashboards]) with the same [user_id] are the same row.  Landing pages
    carry no such constraint: a user may have several. *)
Theorem one_brandbook_and_dashboard_per_user :
  ∀ books boards : list PgCore.Row,
    PgCore.tableHolds Schema.brandbooks books = true →
    PgCore.tableHolds Schema.dashboards boards = true →
    (∀ i j r1 r2,
       books !! i = Some r1 → books !! j = Some r2 →
       r1 !! "user_id" = r2 !! "user_id" → i = j)
    ∧ (∀ user : SqlValue,
         (List.length (filter (λ r : PgCore.Row, r !! "user_id" = Some user) books)
          ≤ 1)%nat)
    ∧ (∀ i j r1 r2,
         boards !! i = Some r1 → boards !! j = Some r2 →
         r1 !! "user_id" = r2 !! "user_id" → i = j)
    ∧ (∀ user : SqlValue,
         (List.length (filter (λ r : PgCore.Row, r !! "user_id" = Some user) boards)
          ≤ 1)%nat)
    ∧ (∃ (pages : list PgCore.Row) (r1 r2 : PgCore.Row),
         PgCore.tableHolds Schema.landingPages pages = true
         ∧ pages !! 0%nat = Some r1 ∧ pages !! 1%nat = Some r2
         ∧ r1 !! "user_id" = r2 !! "user_id").
Proof.
  intros books boards Hbooks Hboards.
  set (owner := PgCore.varchar "user_id" |> PgCore.notNull |> PgCore.unique).
  assert (("userId", owner) ∈ PgCore.columns Schema.brandbooks) as Hb
    by (cbn; in_list).
  assert (("userId", owner) ∈ PgCore.columns Schema.dashboards) as Hd
    by (cbn; in_list).
  split; [|split; [|split; [|split]]].
  - intros i j r1 r2. by apply (unique_not_null_column _ _ _ owner _ _ _ _ Hbooks Hb).
  - intros user. apply (NoDup_omap_at_most_one (PgCore.cell owner)).
    eapply columnHolds_unique; [by eapply tableHolds_column | done].
  - intros i j r1 r2. by apply (unique_not_null_column _ _ _ owner _ _ _ _ Hboards Hd).
  - intros user. apply (NoDup_omap_at_most_one (PgCore.cell owner)).
    eapply columnHolds_unique; [by eapply tableHolds_column | done].
  - eexists sampleLandingPages, _, _.
    split; [by vm_compute|]. split; [reflexivity|]. split; [reflexivity|].
    by vm_compute.
Qed.

Lemma one_brandbook_and_dashboard_per_user_witness :
  PgCore.tableHolds Schema.brandbooks sampleBrandbooks = true
  ∧ PgCore.tableHolds Schema.dashboards sampleDashboards = true
  ∧ (List.length
       (filter (λ r : PgCore.Row, r !! "user_id" = Some (SqlText "u1")) sampleBrandbooks)
     ≤ 1)%nat
  ∧ (List.length
       (filter (λ r : PgCore.Row, r !! "user_id" = Some (SqlText "u1")) sampleDashboards)
     ≤ 1)%nat.
Proof.
  assert (PgCore.tableHolds Schema.brandbooks sampleBrandbooks = true) as Hb
    by (vm_compute; reflexivity).
  assert (PgCore.tableHolds Schema.dashboards sampleDashboards = true) as Hd
    by (vm_compute; reflexivity).
  destruct (one_brandbook_and_dashboard_per_user sampleBrandbooks sampleDashboards Hb Hd)
    as (_ & Hbooks & _ & Hboards & _).
  split; [exact Hb|]. split; [exact Hd|]. split; [apply Hbooks | apply Hboards].
Defined.

(** X14. Every table has a primary key column named [id]: in every state
    its declaration allows, each row has an [id] and two rows with the
    same [id] are the same row. *)
Theorem every_table_is_keyed_by_id :
  ∀ (t : PgCore.Table) (rows : list PgCore.Row),
    t ∈ Schema.tables →
    PgCore.tableHolds t rows = true →
    (∃ key c,
       (key, c) ∈ PgCore.columns t
       ∧ PgCore.isPrimaryKey c = true ∧ PgCore.columnName c = "id")
    ∧ (∀ r, r ∈ rows → is_Some (r !! "id"))
    ∧ (∀ i j r1 r2,
         rows !! i = Some r1 → rows !! j = Some r2 →
         r1 !! "id" = r2 !! "id" → i = j).
Proof.
  intros t rows Hin Hrows.
  assert (∃ key c,
            (key, c) ∈ PgCore.columns t
            ∧ PgCore.isPrimaryKey c = true ∧ PgCore.columnName c = "id")
    as (key & c & Hc & Hpk & Hname).
  { unfold Schema.tables in Hin.
    repeat (apply elem_of_cons in Hin as [->|Hin];
            [eexists _, _; split; [apply list_elem_of_here|]; by split|]).
    by apply elem_of_nil in Hin. }
  destruct (primaryKey_identifies t key c rows Hc Hpk Hrows) as [Hsome Hsame].
  unfold PgCore.cell in Hsome, Hsame. rewrite Hname in Hsome, Hsame.
  split; [by exists key, c|]. by split.
Qed.

Lemma every_table_is_keyed_by_id_witness :
  (∀ r, r ∈ sampleLandingPages → is_Some (r !! "id"))
  ∧ (∀ i j r1 r2,
       sampleLandingPages !! i = Some r1 → sampleLandingPages !! j = Some r2 →
       r1 !! "id" = r2 !! "id" → i = j).
Proof.
  assert (Schema.landingPages ∈ Schema.tables) as Hin
    by (unfold Schema.tables; in_list).
  assert (PgCore.tableHolds Schema.landingPages sampleLandingPages = true) as Hrows
    by (vm_compute; reflexivity).
  exact (proj2 (every_table_is_keyed_by_id Schema.landingPages sampleLandingPages
                  Hin Hrows)).
Defined.

Section Owners.
Import PgCore.

(** Every column named [user_id] rejects [NULL], in every table. *)
Lemma user_id_columns_reject_null :
  forallb (λ t : Table,
    forallb (λ kc : string * Column,
      implb (String.eqb (columnName (snd kc)) "user_id") (rejectsNull (snd kc)))
      (columns t)) Schema.tables = true.
Proof. by vm_compute. Qed.

(** Every table but [users] and [templates] has a [user_id] column. *)
Lemma owned_tables_have_user_id :
  forallb (λ t : Table,
    existsb (λ kc : string * Column, String.eqb (columnName (snd kc)) "user_id")
            (columns t)
    || bool_decide (tableName t ∈ ["users"; "templates"])) Schema.tables = true.
Proof. by vm_compute. Qed.
End Owners.

(** X15. Every row has an owner.  Each table other than [users] and
    [templates] has a [user_id] column, and the column is declared
    [notNull]: in every state the declaration allows, each row of such a
    table holds a [user_id]. *)
Theorem every_row_has_an_owner :
  ∀ (t : PgCore.Table) (rows : list PgCore.Row) (r : PgCore.Row),
    t ∈ Schema.tables →
    PgCore.tableName t ∉ ["users"; "templates"] →
    PgCore.tableHolds t rows = true →
    r ∈ rows →
    is_Some (r !! "user_id").
Proof.
  intros t rows r Hin Hname Hrows Hr.
  pose proof owned_tables_have_user_id as Hhas.
  pose proof user_id_columns_reject_null as Hnn.
  rewrite forallb_forall in Hhas, Hnn.
  apply list_elem_of_In in Hin.
  specialize (Hhas t Hin). specialize (Hnn t Hin).
  apply orb_true_iff in Hhas as [Hhas | Hhas];
    [|by apply bool_decide_eq_true in Hhas].
  apply existsb_exists in Hhas as ([key c] & Hc & Hcol).
  rewrite forallb_forall in Hnn. specialize (Hnn (key, c) Hc).
  cbn [snd] in Hcol, Hnn. rewrite Hcol in Hnn. cbn in Hnn.
  apply String.eqb_eq in Hcol.
  apply list_elem_of_In in Hc.
  pose proof (columnHolds_not_null rows c r
                (tableHolds_column t rows key c Hrows Hc) Hnn Hr) as Hsome.
  unfold PgCore.cell in Hsome. by rewrite Hcol in Hsome.
Qed.

Lemma every_row_has_an_owner_witness :
  PgCore.tableHolds Schema.domains sampleDomains = true
  ∧ Forall (λ r : PgCore.Row, is_Some (r !! "user_id")) sampleDomains.
Proof.
  split; [by vm_compute|]. apply Forall_forall. intros r.
  apply (every_row_has_an_owner Schema.domains sampleDomains r).
  - unfold Schema.tables. in_list.
  - cbn. intros H.
    repeat (apply elem_of_cons in H as [H|H]; [discriminate H|]).
    by apply elem_of_nil in H.
  - by vm_compute.
Defined.

Section ForeignKeys.
Import PgCore PgDatabase.

(** Every foreign key of the schema points at the primary key of one of
    its tables. *)
Lemma foreign_keys_point_at_primary_keys :
  forallb (λ t : Table,
    forallb (λ kc : string * Column,
      match foreignKey (snd kc) with
      | None => true
      | Some (table, col) =>
          existsb (λ t' : Table,
            String.eqb (tableName t') table
            && existsb (λ kc' : string * Column,
                 String.eqb (columnName (snd kc')) col && isPrimaryKey (snd kc'))
                 (columns t')) Schema.tables
      end) (columns t)) Schema.tables = true.
Proof. by vm_compute. Qed.

Lemma databaseHolds_table (tables : list Table) (db : Database) (t : Table) :
  databaseHolds tables db = true → t ∈ tables →
  tableHolds t (rowsOf db t) = true
  ∧ ∀ key c, (key, c) ∈ columns t → foreignKeyHolds db (rowsOf db t) c = true.
Proof.
  unfold databaseHolds. rewrite forallb_forall. intros H Hin.
  apply list_elem_of_In, H, andb_true_iff in Hin as [Ht Hfk]. split; [done|].
  intros key c Hc. rewrite forallb_forall in Hfk.
  by apply list_elem_of_In, Hfk in Hc.
Qed.

Lemma foreignKeyHolds_resolves (db : Database) (rows : list Row) (c : Column)
    (table col : string) (r : Row) (v : SqlValue) :
  foreignKeyHolds db rows c = true → foreignKey c = Some (table, col) →
  r ∈ rows → cell c r = Some v →
  ∃ i r', tableRows db table !! i = Some r' ∧ r' !! col = Some v.
Proof.
  unfold foreignKeyHolds. intros H Hfk Hr Hv. rewrite Hfk in H.
  rewrite forallb_forall in H. apply list_elem_of_In, H in Hr.
  rewrite Hv in Hr. apply existsb_exists in Hr as (r' & Hin & Hr').
  apply bool_decide_eq_true in Hr'.
  apply list_elem_of_In, list_elem_of_lookup in Hin as [i Hi]. by exists i, r'.
Qed.

(** The column a foreign key of the schema points at names its row. *)
Lemma referenced_value_names_one_row (db : Database) (t : Table) (key : string)
    (c : Column) (table col : string) (v : SqlValue) (i j : nat) (r1 r2 : Row) :
  databaseHolds Schema.tables db = true →
  t ∈ Schema.tables → (key, c) ∈ columns t → foreignKey c = Some (table, col) →
  tableRows db table !! i = Some r1 → tableRows db table !! j = Some r2 →
  r1 !! col = Some v → r2 !! col = Some v → i = j.
Proof.
  intros Hdb Ht Hc Hfk Hi Hj H1 H2.
  pose proof foreign_keys_point_at_primary_keys as Hpk.
  rewrite forallb_forall in Hpk.
  apply list_elem_of_In in Ht. specialize (Hpk t Ht).
  rewrite forallb_forall in Hpk.
  apply list_elem_of_In in Hc. specialize (Hpk (key, c) Hc).
  cbn [snd] in Hpk. rewrite Hfk in Hpk.
  apply existsb_exists in Hpk as (t' & Ht' & Hpk).
  apply andb_true_iff in Hpk as [Hname Hpk].
  apply existsb_exists in Hpk as ([key' c'] & Hc' & Hpk).
  apply andb_true_iff in Hpk as [Hcol Hpk]. cbn [snd] in Hcol, Hpk.
  apply String.eqb_eq in Hname, Hcol.
  apply list_elem_of_In in Ht', Hc'.
  destruct (databaseHolds_table _ _ _ Hdb Ht') as [Hrows _].
  unfold rowsOf in Hrows. rewrite Hname in Hrows.
  destruct (primaryKey_identifies t' key' c' _ Hc' Hpk Hrows) as [_ Hsame].
  unfold cell in Hsame. rewrite Hcol in Hsame.
  apply (Hsame i j r1 r2); congruence.
Qed.
End ForeignKeys.

(** X16. References resolve to exactly one row.  In every database the
    declarations allow, a row that holds a value in a column declared with
    [references] points at one row of the referenced table and no other:
    the model of a user belongs to one existing user, a generated image
    with a [model_id] to one existing model, and so on for every foreign
    key of the schema. *)
Theorem references_resolve_to_one_row :
  ∀ (db : PgDatabase.Database) (t : PgCore.Table) (key : string) (c : PgCore.Column)
    (table col : string) (r : PgCore.Row) (v : SqlValue),
    PgDatabase.databaseHolds Schema.tables db = true →
    t ∈ Schema.tables →
    (key, c) ∈ PgCore.columns t →
    PgCore.foreignKey c = Some (table, col) →
    r ∈ PgDatabase.rowsOf db t →
    PgCore.cell c r = Some v →
    ∃ i target,
      PgDatabase.tableRows db table !! i = Some target
      ∧ target !! col = Some v
      ∧ ∀ j other,
          PgDatabase.tableRows db table !! j = Some other →
          other !! col = Some v → j = i.
Proof.
  intros db t key c table col r v Hdb Ht Hc Hfk Hr Hv.
  destruct (databaseHolds_table _ _ _ Hdb Ht) as [_ Hfks].
  destruct (foreignKeyHolds_resolves db _ c table col r v (Hfks key c Hc) Hfk Hr Hv)
    as (i & target & Hi & Htarget).
  exists i, target. split; [done|]. split; [done|].
  intros j other Hj Hother.
  by apply (referenced_value_names_one_row db t key c table col v j i other target).
Qed.

Lemma references_resolve_to_one_row_witness :
  PgDatabase.databaseHolds Schema.tables sampleDatabase = true
  ∧ ∃ i target,
      PgDatabase.tableRows sampleDatabase "users" !! i = Some target
      ∧ target !! "id" = Some (SqlText "u2")
      ∧ ∀ j other,
          PgDatabase.tableRows sampleDatabase "users" !! j = Some other →
          other !! "id" = Some (SqlText "u2") → j = i.
Proof.
  assert (PgDatabase.databaseHolds Schema.tables sampleDatabase = true) as Hdb
    by (vm_compute; reflexivity).
  split; [exact Hdb|].
  apply (references_resolve_to_one_row sampleDatabase Schema.userModels "userId"
           (PgCore.varchar "user_id" |> PgCore.references Schema.users "id"
            |> PgCore.notNull |> PgCore.unique)
           "users" "id"
           {[ "id" := SqlInt 2; "user_id" := SqlText "u2";
              "trigger_word" := SqlText "user_u2";
              "training_status" := SqlText "pending" ]}
           (SqlText "u2") Hdb).
  - unfold Schema.tables. in_list.
  - cbn. in_list.
  - reflexivity.
  - vm_compute. in_list.
  - by vm_compute.
Defined.

(** X17. A [serial] column is never [NULL], foreign key or not.  So every
    row of [ai_images] holds a [project_id], which names one existing
    project and no other; and every row of [onboarding_data] holds an
    [onboarding_step]. *)
Theorem serial_columns_are_never_null :
  ∀ db : PgDatabase.Database,
    PgDatabase.databaseHolds Schema.tables db = true →
    (∀ image,
       image ∈ PgDatabase.rowsOf db Schema.aiImages →
       ∃ v i project,
         image !! "project_id" = Some v
         ∧ PgDatabase.tableRows db "projects" !! i = Some project
         ∧ project !! "id" = Some v
         ∧ ∀ j other,
             PgDatabase.tableRows db "projects" !! j = Some other →
             other !! "id" = Some v → j = i)
    ∧ (∀ answers,
         answers ∈ PgDatabase.rowsOf db Schema.onboardingData →
         is_Some (answers !! "onboarding_step")).
Proof.
  intros db Hdb.
  set (projectId := PgCore.serial "project_id" |> PgCore.references Schema.projects "id").
  set (step := PgCore.serial "onboarding_step").
  assert (Schema.aiImages ∈ Schema.tables) as Himages
    by (unfold Schema.tables; in_list).
  assert (Schema.onboardingData ∈ Schema.tables) as Honboarding
    by (unfold Schema.tables; in_list).
  assert (("projectId", projectId) ∈ PgCore.columns Schema.aiImages) as Hc
    by (cbn; in_list).
  assert (("onboardingStep", step) ∈ PgCore.columns Schema.onboardingData) as Hs
    by (cbn; in_list).
  split.
  - intros image Himage.
    destruct (databaseHolds_table _ _ _ Hdb Himages) as [Hrows Hfks].
    destruct (columnHolds_not_null _ projectId image
                (tableHolds_column _ _ _ _ Hrows Hc) eq_refl Himage) as [v Hv].
    destruct (foreignKeyHolds_resolves db _ projectId "projects" "id" image v
                (Hfks _ _ Hc) eq_refl Himage Hv) as (i & project & Hi & Hproject).
    exists v, i, project. repeat split; try done.
    intros j other Hj Hother.
    by apply (referenced_value_names_one_row db Schema.aiImages "projectId" projectId
                "projects" "id" v j i other project).
  - intros answers Hanswers.
    destruct (databaseHolds_table _ _ _ Hdb Honboarding) as [Hrows _].
    exact (columnHolds_not_null _ step answers
             (tableHolds_column _ _ _ _ Hrows Hs) eq_refl Hanswers).
Qed.

Lemma serial_columns_are_never_null_witness :
  PgDatabase.databaseHolds Schema.tables sampleDatabase = true
  ∧ Forall (λ image : PgCore.Row,
      ∃ v i project,
        image !! "project_id" = Some v
        ∧ PgDatabase.tableRows sampleDatabase "projects" !! i = Some project
        ∧ project !! "id" = Some v)
      (PgDatabase.rowsOf sampleDatabase Schema.aiImages).
Proof.
  assert (PgDatabase.databaseHolds Schema.tables sampleDatabase = true) as Hdb
    by (vm_compute; reflexivity).
  split; [exact Hdb|]. apply Forall_forall. intros image Himage.
  destruct (proj1 (serial_columns_are_never_null sampleDatabase Hdb) image Himage)
    as (v & i & project & Hv & Hi & Hp & _).
  by exists v, i, project.
Defined.
